(** * opengis.bridge.java.referencing: the delegating accessor layer

    A shallow embedding of the Python module
    [geoapi-java-python/src/main/python/opengis/bridge/java/referencing.py].
    Every class of that module wraps a jpy proxy of a Java object in its
    [_proxy] attribute and forwards its accessors to it.

    The embedding has three layers:
    - Python values, objects and the heap on which wrappers are allocated;
    - the Java side, reached only through [jinvoke], which is left abstract
      (a type class) so that every theorem holds for every Java library;
    - the classes of the module, one Rocq module per Python class, each
      method a program of the [Py] monad (state and exceptions).

    Foreign calls are recorded in a log ([calls]) so that "which accessor
    was invoked, on which handle, with which arguments" can be stated. *)

From Stdlib Require Import ZArith.
From stdpp Require Import gmap strings list fin_maps.

Open Scope string_scope.
Open Scope list_scope.

(** ** Python values and objects *)

(** A jpy proxy is identified by the Java object it stands for. *)
Abbreviation handle := nat (only parsing).

(** The address of a Python object. *)
Abbreviation loc := nat (only parsing).

Inductive value :=
| VNone
| VInt (n : Z)
| VStr (s : string)
| VJava (h : handle)
| VRef (l : loc).

#[global] Instance value_eq_dec : EqDecision value.
Proof. solve_decision. Defined.

(** The nine classes the module declares, in source order. *)
Inductive cls :=
| IdentifiedObject
| GeodeticDatum
| CoordinateSystemAxis
| CoordinateSystem
| CartesianCS
| EllipsoidalCS
| CoordinateReferenceSystem
| GeographicCRS
| ProjectedCRS.

#[global] Instance cls_eq_dec : EqDecision cls.
Proof. solve_decision. Defined.

(** The class of a heap object: one of the nine above, or the [Identifier]
    imported from [opengis.bridge.java.metadata]. *)
Inductive pyclass :=
| Referencing (c : cls)
| Metadata_Identifier.

#[global] Instance pyclass_eq_dec : EqDecision pyclass.
Proof. solve_decision. Defined.

Definition cls_name (c : cls) : string :=
  match c with
  | IdentifiedObject => "IdentifiedObject"
  | GeodeticDatum => "GeodeticDatum"
  | CoordinateSystemAxis => "CoordinateSystemAxis"
  | CoordinateSystem => "CoordinateSystem"
  | CartesianCS => "CartesianCS"
  | EllipsoidalCS => "EllipsoidalCS"
  | CoordinateReferenceSystem => "CoordinateReferenceSystem"
  | GeographicCRS => "GeographicCRS"
  | ProjectedCRS => "ProjectedCRS"
  end.

Definition pyclass_name (k : pyclass) : string :=
  match k with
  | Referencing c => cls_name c
  | Metadata_Identifier => "Identifier"
  end.

(** A Python instance: its class and its [__dict__]. *)
Record obj := Obj { obj_class : pyclass; obj_dict : gmap string value }.

(** ** Exceptions and outcomes *)

Inductive exn :=
| AttributeError (msg : string)
| TypeError (msg : string)
| ValueError (msg : string)
| RuntimeError (msg : string).

#[global] Instance exn_eq_dec : EqDecision exn.
Proof. solve_decision. Defined.

(** [Wrong] is not a Python behaviour: it marks a dereference of an address
    that was never allocated, which no Python program can perform. *)
Inductive outcome (A : Type) :=
| Val (a : A)
| Exc (e : exn)
| Wrong.
Arguments Val {A} a.
Arguments Exc {A} e.
Arguments Wrong {A}.

(** ** The Java side *)

(** The bridge: calling method [m] with arguments [args] on the Java object
    behind handle [h].  The Java side has a state of its own, it may return
    any value (a Java null arrives as [VNone]) and it may fail in any way
    (missing method, overload mismatch, Java exception). *)
Class Bridge := {
  jstate : Type;
  jinvoke : handle -> string -> list value -> jstate -> (exn + value) * jstate
}.

(** One foreign call, as logged. *)
Record event := Event {
  ev_target : handle;
  ev_method : string;
  ev_args : list value
}.

#[global] Instance event_eq_dec : EqDecision event.
Proof. solve_decision. Defined.

(** ** The Python state and its monad *)

Section Interp.
Context `{B : Bridge}.

(** The heap is append-only: an object's address is its index. *)
Record state := State {
  heap : list obj;
  world : jstate;
  calls : list event
}.

Definition Py (A : Type) : Type := state -> outcome A * state.

Definition ret {A} (a : A) : Py A := fun s => (Val a, s).

Definition raise {A} (e : exn) : Py A := fun s => (Exc e, s).

Definition bind {A C} (m : Py A) (k : A -> Py C) : Py C :=
  fun s =>
    match m s with
    | (Val a, s') => k a s'
    | (Exc e, s') => (Exc e, s')
    | (Wrong, s') => (Wrong, s')
    end.

Definition run {A} (m : Py A) (s : state) : outcome A * state := m s.

#[global] Instance Py_ret : MRet Py := @ret.
#[global] Instance Py_bind : MBind Py := fun A C k m => bind m k.

End Interp.

Section Primitives.
Context `{B : Bridge}.

(** [object.__new__]: a fresh instance with an empty [__dict__]. *)
Definition alloc (k : pyclass) : Py loc :=
  fun s =>
    (Val (length (heap s)),
     State (heap s ++ [Obj k ∅]) (world s) (calls s)).

(** [self.a = v] *)
Definition setattr (l : loc) (a : string) (v : value) : Py unit :=
  fun s =>
    match heap s !! l with
    | Some o =>
        (Val tt,
         State (<[l := Obj (obj_class o) (<[a := v]> (obj_dict o))]> (heap s))
               (world s) (calls s))
    | None => (Wrong, s)
    end.

Definition no_attribute (owner attr : string) : exn :=
  AttributeError ("'" +:+ owner +:+ "' object has no attribute '" +:+ attr +:+ "'").

(** [self.a] for an instance attribute. *)
Definition getattr (l : loc) (a : string) : Py value :=
  fun s =>
    match heap s !! l with
    | Some o =>
        match obj_dict o !! a with
        | Some v => (Val v, s)
        | None => (Exc (no_attribute (pyclass_name (obj_class o)) a), s)
        end
    | None => (Wrong, s)
    end.

(** [target.m(args)] where [m] is one of the Java accessor names.  Only a
    jpy proxy reaches the bridge, and then the call is logged.  [None], an
    [int] and a [str] have no such attribute, and neither has an instance
    of a class of this module (their methods are spelled in snake case). *)
Definition invoke (target : value) (m : string) (args : list value) : Py value :=
  fun s =>
    match target with
    | VJava h =>
        let '(r, w') := jinvoke h m args (world s) in
        let s' := State (heap s) w' (calls s ++ [Event h m args]) in
        match r with
        | inl e => (Exc e, s')
        | inr v => (Val v, s')
        end
    | VNone => (Exc (no_attribute "NoneType" m), s)
    | VInt _ => (Exc (no_attribute "int" m), s)
    | VStr _ => (Exc (no_attribute "str" m), s)
    | VRef l =>
        match heap s !! l with
        | Some o => (Exc (no_attribute (pyclass_name (obj_class o)) m), s)
        | None => (Wrong, s)
        end
    end.

End Primitives.

(** ** opengis.bridge.java.metadata.Identifier *)

Module Identifier.
Section Methods.
Context `{B : Bridge}.

(** Modelled from the spec: the class [Identifier] is imported from
    [opengis.bridge.java.metadata], which is outside this module.  The spec
    describes it as one more delegating wrapper ("wrapping a returned
    identifier object"): it keeps the handle it is given and reads the
    identifier's code from it on demand. *)
Definition __init__ (self : loc) (proxy : value) : Py unit :=
  setattr self "_proxy" proxy.

(** Modelled from the spec: [Identifier.code], the attribute read by the
    test [test_find_crs], forwards to the Java accessor [getCode]. *)
Definition code (self : loc) : Py value :=
  proxy ← getattr self "_proxy";
  invoke proxy "getCode" [].

End Methods.
End Identifier.

Section Instantiate_Identifier.
Context `{B : Bridge}.

(** The call [Identifier(p)]. *)
Definition new_Identifier (p : value) : Py value :=
  self ← alloc Metadata_Identifier;
  Identifier.__init__ self p;;
  ret (VRef self).

End Instantiate_Identifier.

(** ** The classes of the module

    Decorators.  [@property] turns a method into an attribute read; it
    changes how the method is spelled at the call site, not what it does.
    [@abstractmethod] only flags the function object; whether it vetoes
    instantiation is decided by the metaclass of the base classes in
    [opengis.referencing], outside this module.  The repository's test
    instantiates [CoordinateReferenceSystem] and reads its [name], and the
    embedding follows it: construction runs [__init__] and nothing else.

    Four accessors ([ellipsoid], [prime_meridian], [direction], [unit]) have
    a signature and no statement.  They are embedded as the empty statement
    sequence: control falls off the end and the call evaluates to [None]. *)

Module IdentifiedObject.
Section Methods.
Context `{B : Bridge}.

Definition __init__ (self : loc) (proxy : value) : Py unit :=
  setattr self "_proxy" proxy.

Definition name (self : loc) : Py value :=
  proxy ← getattr self "_proxy";
  r ← invoke proxy "getName" [];
  new_Identifier r.

Definition to_wkt (self : loc) : Py value :=
  proxy ← getattr self "_proxy";
  invoke proxy "toWKT" [].

Definition __str__ (self : loc) : Py value :=
  proxy ← getattr self "_proxy";
  invoke proxy "toString" [].

End Methods.
End IdentifiedObject.

Module GeodeticDatum.
Section Methods.
Context `{B : Bridge}.

Definition __init__ (self : loc) (proxy : value) : Py unit :=
  IdentifiedObject.__init__ self proxy.

Definition ellipsoid (self : loc) : Py value :=
  ret VNone.

Definition prime_meridian (self : loc) : Py value :=
  ret VNone.

End Methods.
End GeodeticDatum.

Module CoordinateSystemAxis.
Section Methods.
Context `{B : Bridge}.

Definition __init__ (self : loc) (proxy : value) : Py unit :=
  IdentifiedObject.__init__ self proxy.

Definition abbreviation (self : loc) : Py value :=
  proxy ← getattr self "_proxy";
  invoke proxy "getAbbreviation" [].

Definition direction (self : loc) : Py value :=
  ret VNone.

Definition unit (self : loc) : Py value :=
  ret VNone.

End Methods.
End CoordinateSystemAxis.

Module CoordinateSystem.
Section Methods.
Context `{B : Bridge}.

Definition __init__ (self : loc) (proxy : value) : Py unit :=
  IdentifiedObject.__init__ self proxy.

Definition dimension (self : loc) : Py value :=
  proxy ← getattr self "_proxy";
  invoke proxy "getDimension" [].

(** The annotation [dim: int] is not enforced by Python: [dim] is any
    value. *)
Definition axis (self : loc) (dim : value) : Py value :=
  proxy ← getattr self "_proxy";
  invoke proxy "getAxis" [dim].

End Methods.
End CoordinateSystem.

Module CartesianCS.
Section Methods.
Context `{B : Bridge}.

Definition __init__ (self : loc) (proxy : value) : Py unit :=
  CoordinateSystem.__init__ self proxy.

End Methods.
End CartesianCS.

Module EllipsoidalCS.
Section Methods.
Context `{B : Bridge}.

Definition __init__ (self : loc) (proxy : value) : Py unit :=
  CoordinateSystem.__init__ self proxy.

End Methods.
End EllipsoidalCS.

Module CoordinateReferenceSystem.
Section Methods.
Context `{B : Bridge}.

Definition __init__ (self : loc) (proxy : value) : Py unit :=
  IdentifiedObject.__init__ self proxy.

Definition coordinate_system (self : loc) : Py value :=
  proxy ← getattr self "_proxy";
  invoke proxy "getCoordinateSystem" [].

Definition datum (self : loc) : Py value :=
  proxy ← getattr self "_proxy";
  invoke proxy "getDatum" [].

End Methods.
End CoordinateReferenceSystem.

Module GeographicCRS.
Section Methods.
Context `{B : Bridge}.

Definition __init__ (self : loc) (proxy : value) : Py unit :=
  CoordinateReferenceSystem.__init__ self proxy.

End Methods.
End GeographicCRS.

Module ProjectedCRS.
Section Methods.
Context `{B : Bridge}.

Definition __init__ (self : loc) (proxy : value) : Py unit :=
  IdentifiedObject.__init__ self proxy.

Definition base_crs (self : loc) : Py value :=
  proxy ← getattr self "_proxy";
  invoke proxy "getBaseCRS" [].

End Methods.
End ProjectedCRS.

(** ** Instantiation and method resolution *)

Section Classes.
Context `{B : Bridge}.

(** The [__init__] that [C(proxy)] runs, for each class [C]. *)
Definition init (c : cls) : loc -> value -> Py unit :=
  match c with
  | IdentifiedObject => IdentifiedObject.__init__
  | GeodeticDatum => GeodeticDatum.__init__
  | CoordinateSystemAxis => CoordinateSystemAxis.__init__
  | CoordinateSystem => CoordinateSystem.__init__
  | CartesianCS => CartesianCS.__init__
  | EllipsoidalCS => EllipsoidalCS.__init__
  | CoordinateReferenceSystem => CoordinateReferenceSystem.__init__
  | GeographicCRS => GeographicCRS.__init__
  | ProjectedCRS => ProjectedCRS.__init__
  end.

(** The call [C(proxy)]; the result is the reference to the new wrapper. *)
Definition new (c : cls) (proxy : value) : Py loc :=
  self ← alloc (Referencing c);
  init c self proxy;;
  mret self.

(** The accessors of the module, with the arguments of the call. *)
Inductive method :=
| M_name
| M_to_wkt
| M_str
| M_ellipsoid
| M_prime_meridian
| M_abbreviation
| M_direction
| M_unit
| M_dimension
| M_axis (dim : value)
| M_coordinate_system
| M_datum
| M_base_crs.

#[global] Instance method_eq_dec : EqDecision method.
Proof. solve_decision. Defined.

(** What each class body defines itself. *)
Definition own_method (c : cls) (m : method) : option (loc -> Py value) :=
  match c, m with
  | IdentifiedObject, M_name => Some IdentifiedObject.name
  | IdentifiedObject, M_to_wkt => Some IdentifiedObject.to_wkt
  | IdentifiedObject, M_str => Some IdentifiedObject.__str__
  | GeodeticDatum, M_ellipsoid => Some GeodeticDatum.ellipsoid
  | GeodeticDatum, M_prime_meridian => Some GeodeticDatum.prime_meridian
  | CoordinateSystemAxis, M_abbreviation => Some CoordinateSystemAxis.abbreviation
  | CoordinateSystemAxis, M_direction => Some CoordinateSystemAxis.direction
  | CoordinateSystemAxis, M_unit => Some CoordinateSystemAxis.unit
  | CoordinateSystem, M_dimension => Some CoordinateSystem.dimension
  | CoordinateSystem, M_axis dim => Some (fun self => CoordinateSystem.axis self dim)
  | CoordinateReferenceSystem, M_coordinate_system =>
      Some CoordinateReferenceSystem.coordinate_system
  | CoordinateReferenceSystem, M_datum => Some CoordinateReferenceSystem.datum
  | ProjectedCRS, M_base_crs => Some ProjectedCRS.base_crs
  | _, _ => None
  end.

(** The method resolution order, restricted to the classes of this module.
    Each class names its in-module base first, so these come before the
    abstract interfaces of [opengis.referencing]. *)
Definition mro (c : cls) : list cls :=
  match c with
  | IdentifiedObject => [IdentifiedObject]
  | GeodeticDatum => [GeodeticDatum; IdentifiedObject]
  | CoordinateSystemAxis => [CoordinateSystemAxis; IdentifiedObject]
  | CoordinateSystem => [CoordinateSystem; IdentifiedObject]
  | CartesianCS => [CartesianCS; CoordinateSystem; IdentifiedObject]
  | EllipsoidalCS => [EllipsoidalCS; CoordinateSystem; IdentifiedObject]
  | CoordinateReferenceSystem => [CoordinateReferenceSystem; IdentifiedObject]
  | GeographicCRS => [GeographicCRS; CoordinateReferenceSystem; IdentifiedObject]
  | ProjectedCRS => [ProjectedCRS; IdentifiedObject]
  end.

Fixpoint lookup_method (order : list cls) (m : method) : option (loc -> Py value) :=
  match order with
  | [] => None
  | c :: rest =>
      match own_method c m with
      | Some f => Some f
      | None => lookup_method rest m
      end
  end.

(** The function that [w.m] runs when [w] is an instance of [c]; [None]
    when no class of this module provides [m] to [c]. *)
Definition dispatch (c : cls) (m : method) : option (loc -> Py value) :=
  lookup_method (mro c) m.

(** The builtin [str(w)]: it runs [type(w).__str__(w)] and insists on a
    [str] result. *)
Definition str (dunder_str : Py value) : Py value :=
  r ← dunder_str;
  match r with
  | VStr _ => mret r
  | _ => raise (TypeError "__str__ returned non-string")
  end.

(** The expression [v.code], as in the test's [crs.name.code]. *)
Definition attribute_code (v : value) : Py value :=
  fun s =>
    match v with
    | VRef l =>
        match heap s !! l with
        | Some o =>
            match obj_class o with
            | Metadata_Identifier => Identifier.code l s
            | Referencing c => (Exc (no_attribute (cls_name c) "code"), s)
            end
        | None => (Wrong, s)
        end
    | VNone => (Exc (no_attribute "NoneType" "code"), s)
    | VInt _ => (Exc (no_attribute "int" "code"), s)
    | VStr _ => (Exc (no_attribute "str" "code"), s)
    | VJava _ => (Exc (no_attribute "jpy proxy" "code"), s)
    end.

(** The body of the test [test_find_crs], from the value the helper found
    on: wrap, read [name], read its [code]. *)
Definition crs_name_code (found : value) : Py value :=
  crs ← new CoordinateReferenceSystem found;
  n ← IdentifiedObject.name crs;
  attribute_code n.

(** ** Observations on states *)

Definition class_of (s : state) (l : loc) : option pyclass :=
  obj_class <$> heap s !! l.

Definition proxy_of (s : state) (l : loc) : option value :=
  o ← heap s !! l; obj_dict o !! "_proxy".

(** [l] is a wrapper of class [c] around [p]. *)
Definition wraps (s : state) (l : loc) (c : cls) (p : value) : Prop :=
  class_of s l = Some (Referencing c) ∧ proxy_of s l = Some p.

(** ** The forwarding table

    The Java accessor each method body names, with the arguments it passes;
    [None] for the four accessors without a body. *)
Definition foreign_of (m : method) : option (string * list value) :=
  match m with
  | M_name => Some ("getName", [])
  | M_to_wkt => Some ("toWKT", [])
  | M_str => Some ("toString", [])
  | M_abbreviation => Some ("getAbbreviation", [])
  | M_dimension => Some ("getDimension", [])
  | M_axis dim => Some ("getAxis", [dim])
  | M_coordinate_system => Some ("getCoordinateSystem", [])
  | M_datum => Some ("getDatum", [])
  | M_base_crs => Some ("getBaseCRS", [])
  | M_ellipsoid | M_prime_meridian | M_direction | M_unit => None
  end.

(** The plain forward of [m] to proxy [p]: the call of the table, its result
    handed back as it is, or inside a new [Identifier] for [name]. *)
Definition forward (m : method) (p : value) : Py value :=
  match foreign_of m with
  | Some (n, args) =>
      r ← invoke p n args;
      if decide (m = M_name) then new_Identifier r else mret r
  | None => mret VNone
  end.

(** The foreign calls a forward to handle [h] logs. *)
Definition events_of (m : method) (h : handle) : list event :=
  match foreign_of m with
  | Some (n, args) => [Event h n args]
  | None => []
  end.

End Classes.

(** ** A Java side to run the module against

    The objects behind EPSG:3395, enough of them to follow the test: the
    projected CRS, its name, its coordinate system with two axes, its
    datum and its base CRS.  The Java state counts the calls served. *)

Module Demo.

Definition crs_3395 : handle := 1.
Definition crs_3395_name : handle := 2.
Definition cartesian_cs : handle := 3.
Definition axis_easting : handle := 4.
Definition axis_northing : handle := 5.
Definition wgs84_datum : handle := 6.
Definition wgs84_geographic : handle := 7.

Definition no_such_method (m : string) : exn :=
  AttributeError ("no Java method named '" +:+ m +:+ "'").

Definition answer (h : handle) (m : string) (args : list value) : exn + value :=
  match h, args with
  | 1, [] =>
      if String.eqb m "getName" then inr (VJava crs_3395_name)
      else if String.eqb m "toString" then inr (VStr "ProjectedCRS[EPSG:3395]")
      else if String.eqb m "toWKT" then inr (VStr "PROJCRS[...]")
      else if String.eqb m "getCoordinateSystem" then inr (VJava cartesian_cs)
      else if String.eqb m "getDatum" then inr (VJava wgs84_datum)
      else if String.eqb m "getBaseCRS" then inr (VJava wgs84_geographic)
      else inl (no_such_method m)
  | 2, [] =>
      if String.eqb m "getCode" then inr (VStr "WGS 84 / World Mercator")
      else if String.eqb m "toString" then inr (VStr "EPSG:WGS 84 / World Mercator")
      else inl (no_such_method m)
  | 3, [] =>
      if String.eqb m "getDimension" then inr (VInt 2)
      else if String.eqb m "toString" then inr (VStr "CartesianCS[E, N]")
      else inl (no_such_method m)
  | 3, [VInt i] =>
      if String.eqb m "getAxis" then
        if Z.eqb i 0 then inr (VJava axis_easting)
        else if Z.eqb i 1 then inr (VJava axis_northing)
        else inl (RuntimeError "java.lang.IndexOutOfBoundsException")
      else inl (no_such_method m)
  | 4, [] =>
      if String.eqb m "getAbbreviation" then inr (VStr "E")
      else inl (no_such_method m)
  | 5, [] =>
      if String.eqb m "getAbbreviation" then inr (VStr "N")
      else inl (no_such_method m)
  | 6, [] =>
      if String.eqb m "getEllipsoid" then inr (VJava 8)
      else if String.eqb m "getPrimeMeridian" then inr (VJava 9)
      else if String.eqb m "toString" then inr VNone
      else inl (no_such_method m)
  | _, _ => inl (no_such_method m)
  end.

Definition java : Bridge :=
  {| jstate := nat;
     jinvoke := fun h m args served => (answer h m args, S served) |}.

(** Nothing allocated, nothing served, nothing logged. *)
Definition start : @state java := @State java [] 0%nat [].

(** The state after [CoordinateReferenceSystem(crs_3395)]: the wrapper is
    the object at address 0. *)
Definition with_crs : @state java :=
  (run (new (B:=java) CoordinateReferenceSystem (VJava crs_3395)) start).2.

(** The state after [CartesianCS(cartesian_cs)]. *)
Definition with_cs : @state java :=
  (run (new (B:=java) CartesianCS (VJava cartesian_cs)) start).2.

(** The state after [GeodeticDatum(wgs84_datum)]. *)
Definition with_datum : @state java :=
  (run (new (B:=java) GeodeticDatum (VJava wgs84_datum)) start).2.

(** The state after [CoordinateReferenceSystem(None)]. *)
Definition with_none : @state java :=
  (run (new (B:=java) CoordinateReferenceSystem VNone) start).2.

End Demo.

Section Observers.
Context `{B : Bridge}.

(** A program that returns [None] and leaves the Java side alone: no call
    logged, the Java state as it was. *)
Definition silent (m : Py value) (s : state) : Prop :=
  (run m s).1 = Val VNone ∧
  calls (run m s).2 = calls s ∧
  world (run m s).2 = world s.

(** Every foreign call logged from index [k] on has target [h]. *)
Definition targets_only (h : handle) (k : nat) (s : state) : Prop :=
  Forall (λ ev, ev_target ev = h) (drop k (calls s)).

(** The state after the caller has used the accessors [ms], in order, on
    the wrapper [w] of class [c], whatever each of them returned or
    raised.  An accessor the module does not provide to [c] is skipped. *)
Fixpoint after (c : cls) (w : loc) (ms : list method) (s : state) : state :=
  match ms with
  | [] => s
  | m :: rest =>
      match dispatch c m with
      | Some f => after c w rest (run (f w) s).2
      | None => after c w rest s
      end
  end.

End Observers.

(** ** The caller: test_referencing.py *)

Section Caller.
Context `{B : Bridge}.

(** The truth value that [if value:] tests.  [None], zero and the empty
    string are false; a jpy proxy and an instance of a class of this module
    define neither [__bool__] nor [__len__] and are true. *)
Definition truthy (v : value) : bool :=
  match v with
  | VNone => false
  | VInt n => negb (Z.eqb n 0)
  | VStr t => negb (String.eqb t "")
  | VJava _ => true
  | VRef _ => true
  end.

(** How [unittest] files the run of a test method: it passed, an
    assertion failed (here on the pair [assertEqual] compared), another
    exception escaped, or (never in Python) the model went [Wrong]. *)
Inductive test_outcome :=
| Passed
| Failed (first second : value)
| Errored (e : exn)
| Broken.

(** [self.assertEqual(first, second)] as the last statement of a test. *)
Definition assertEqual (first second : value) : test_outcome :=
  if decide (first = second) then Passed else Failed first second.

(** [TestReferencing.test_find_crs], from the point where [jpy.get_type]
    has returned the helper class [handler]. *)
Definition test_find_crs (handler : value) (s : state) : test_outcome * state :=
  match run (invoke handler "findCoordinateReferenceSystem" [VStr "EPSG:3395"]) s with
  | (Val found, s1) =>
      if truthy found then
        match run (crs_name_code found) s1 with
        | (Val code, s2) => (assertEqual code (VStr "WGS 84 / World Mercator"), s2)
        | (Exc e, s2) => (Errored e, s2)
        | (Wrong, s2) => (Broken, s2)
        end
      else (Passed, s1)
  | (Exc e, s1) => (Errored e, s1)
  | (Wrong, s1) => (Broken, s1)
  end.

(** ** More observations *)

(** The type name of [None], of an [int] and of a [str], as it shows in an
    [AttributeError]; these builtin types have no attribute spelled like a
    Java accessor. *)
Definition builtin_type (v : value) : option string :=
  match v with
  | VNone => Some "NoneType"
  | VInt _ => Some "int"
  | VStr _ => Some "str"
  | VJava _ | VRef _ => None
  end.

(** What one accessor call on a wrapper of class [c] around handle [h]
    adds to the log. *)
Definition logged (c : cls) (h : handle) (m : method) : list event :=
  match dispatch c m with
  | Some _ => events_of m h
  | None => []
  end.

End Caller.

(** The demonstration Java side, with the helper class of the test: its
    [findCoordinateReferenceSystem] knows EPSG:3395 and answers null for
    any other code. *)
Module DemoHelper.

Definition python_helper : handle := 10.

Definition answer (h : handle) (m : string) (args : list value) : exn + value :=
  match h, args with
  | 10, [VStr code] =>
      if String.eqb m "findCoordinateReferenceSystem" then
        if String.eqb code "EPSG:3395" then inr (VJava Demo.crs_3395) else inr VNone
      else inl (Demo.no_such_method m)
  | _, _ => Demo.answer h m args
  end.

Definition java : Bridge :=
  {| jstate := nat;
     jinvoke := fun h m args served => (answer h m args, S served) |}.

Definition start : @state java := @State java [] 0%nat [].

(** A Java side on which the helper finds nothing. *)
Definition java_without_crs : Bridge :=
  {| jstate := nat;
     jinvoke := fun h m args served => (inr VNone, S served) |}.

Definition start_without_crs : @state java_without_crs :=
  @State java_without_crs [] 0%nat [].

End DemoHelper.

Module DemoStates.

(** After [CoordinateReferenceSystem("EPSG:3395")]: the caller has passed
    the code itself instead of the object the helper finds for it. *)
Definition with_code_string : @state Demo.java :=
  (run (B:=Demo.java) (new CoordinateReferenceSystem (VStr "EPSG:3395")) Demo.start).2.

End DemoStates.

(** * Properties *)

Section Basics.
Context `{B : Bridge}.

Lemma run_bind {A C} (m : Py A) (k : A → Py C) (s : state) :
  run (m ≫= k) s =
  match run m s with
  | (Val a, s') => run (k a) s'
  | (Exc e, s') => (Exc e, s')
  | (Wrong, s') => (Wrong, s')
  end.
Proof. reflexivity. Qed.

Lemma run_ret {A} (a : A) (s : state) : run (mret a) s = (Val a, s).
Proof. reflexivity. Qed.

Lemma getattr_proxy (s : state) (l : loc) (p : value) :
  proxy_of s l = Some p → run (getattr l "_proxy") s = (Val p, s).
Proof.
  unfold proxy_of, run, getattr. intros Hp.
  destruct (heap s !! l) as [o|]; simpl in Hp; [|discriminate].
  by rewrite Hp.
Qed.

(** Allocation followed by the one assignment of [__init__]. *)
Lemma alloc_then_store (k : pyclass) (p : value) (s : state) :
  run (self ← alloc k; setattr self "_proxy" p;; mret self) s =
  (Val (length (heap s)),
   State (heap s ++ [Obj k {["_proxy" := p]}]) (world s) (calls s)).
Proof.
  unfold run, mbind, Py_bind, bind, alloc, setattr, mret, Py_ret, ret. simpl.
  rewrite list_lookup_middle by reflexivity. simpl.
  rewrite insert_app_r_alt by lia.
  rewrite Nat.sub_diag. simpl. by rewrite insert_empty.
Qed.

Lemma new_run (c : cls) (p : value) (s : state) :
  run (new c p) s =
  (Val (length (heap s)),
   State (heap s ++ [Obj (Referencing c) {["_proxy" := p]}]) (world s) (calls s)).
Proof. destruct c; apply alloc_then_store. Qed.

Lemma new_Identifier_run (r : value) (s : state) :
  run (new_Identifier r) s =
  (Val (VRef (length (heap s))),
   State (heap s ++ [Obj Metadata_Identifier {["_proxy" := r]}]) (world s) (calls s)).
Proof.
  unfold run, new_Identifier, Identifier.__init__.
  unfold mbind, Py_bind, bind, alloc, setattr, mret, Py_ret, ret. simpl.
  rewrite list_lookup_middle by reflexivity. simpl.
  rewrite insert_app_r_alt by lia.
  rewrite Nat.sub_diag. simpl. by rewrite insert_empty.
Qed.

(** Every method a class provides is the plain forward of the table. *)
Lemma dispatch_forward (c : cls) (m : method) (f : loc → Py value)
    (self : loc) (p : value) (s : state) :
  dispatch c m = Some f → proxy_of s self = Some p →
  run (f self) s = run (forward m p) s.
Proof.
  intros Hd Hp.
  apply getattr_proxy in Hp. unfold run in *.
  destruct c, m; simpl in Hd; try discriminate;
    injection Hd as <-; try reflexivity;
    cbv [IdentifiedObject.name IdentifiedObject.to_wkt IdentifiedObject.__str__
         CoordinateSystemAxis.abbreviation CoordinateSystem.dimension
         CoordinateSystem.axis CoordinateReferenceSystem.coordinate_system
         CoordinateReferenceSystem.datum ProjectedCRS.base_crs
         forward foreign_of mbind Py_bind bind];
    rewrite Hp;
    match goal with |- context [invoke ?q ?n ?a s] =>
      destruct (invoke q n a s) as [[r|e|] s'] end;
    reflexivity.
Qed.

End Basics.

(** ** What a foreign call and a forward do to the state *)

Section Forwarding.
Context `{B : Bridge}.

Lemma invoke_java (h : handle) (n : string) (a : list value) (s : state) :
  run (invoke (VJava h) n a) s =
  (match (jinvoke h n a (world s)).1 with inl e => Exc e | inr v => Val v end,
   State (heap s) (jinvoke h n a (world s)).2 (calls s ++ [Event h n a])).
Proof.
  unfold run, invoke. destruct (jinvoke h n a (world s)) as [[e|v] w']; reflexivity.
Qed.

Lemma invoke_heap (p : value) (n : string) (a : list value) (s : state) :
  heap (run (invoke p n a) s).2 = heap s.
Proof.
  destruct p as [| | |h|l]; try reflexivity.
  - rewrite invoke_java. reflexivity.
  - unfold run, invoke. destruct (heap s !! l); reflexivity.
Qed.

(** A target that is not a jpy proxy never reaches the bridge. *)
Lemma invoke_local (p : value) (n : string) (a : list value) (s : state) :
  (∀ h, p ≠ VJava h) → (run (invoke p n a) s).2 = s.
Proof.
  intros Hp. destruct p as [| | |h|l]; try reflexivity.
  - by destruct (Hp h).
  - unfold run, invoke. destruct (heap s !! l); reflexivity.
Qed.

Lemma forward_raw (m : method) (p : value) (n : string) (a : list value) (s : state) :
  foreign_of m = Some (n, a) → m ≠ M_name →
  run (forward m p) s = run (invoke p n a) s.
Proof.
  intros Hf Hm. unfold forward. rewrite Hf, run_bind.
  destruct (decide (m = M_name)); [done|].
  destruct (run (invoke p n a) s) as [[r|e|] s']; reflexivity.
Qed.

Lemma forward_name (p : value) (s : state) :
  run (forward M_name p) s = run (r ← invoke p "getName" []; new_Identifier r) s.
Proof. reflexivity. Qed.

Lemma forward_bodiless (m : method) (p : value) (s : state) :
  foreign_of m = None → run (forward m p) s = (Val VNone, s).
Proof. intros Hf. unfold forward. by rewrite Hf. Qed.

(** A forward raises exactly when its foreign call raises, and then with
    the same exception in the same state. *)
Lemma forward_raises (m : method) (p : value) (s s' : state) (e : exn) :
  run (forward m p) s = (Exc e, s') ↔
  ∃ n a, foreign_of m = Some (n, a) ∧ run (invoke p n a) s = (Exc e, s').
Proof.
  unfold forward. split.
  - destruct (foreign_of m) as [[n a]|] eqn:Hf; [|discriminate].
    rewrite run_bind. intros Hr. exists n, a. split; [done|].
    destruct (run (invoke p n a) s) as [[r|e0|] s0]; try done.
    destruct (decide (m = M_name)); [|discriminate].
    rewrite new_Identifier_run in Hr. discriminate.
  - intros (n & a & Hf & Hr). by rewrite Hf, run_bind, Hr.
Qed.

(** A forward never goes wrong on a proxy that is a legal Python value. *)
Lemma forward_returns (m : method) (p : value) (n : string) (a : list value)
    (r : value) (s s' : state) :
  foreign_of m = Some (n, a) → run (invoke p n a) s = (Val r, s') →
  run (forward m p) s =
  if decide (m = M_name) then
    (Val (VRef (length (heap s'))),
     State (heap s' ++ [Obj Metadata_Identifier {["_proxy" := r]}])
           (world s') (calls s'))
  else (Val r, s').
Proof.
  intros Hf Hr. unfold forward. rewrite Hf, run_bind, Hr.
  destruct (decide (m = M_name)); [apply new_Identifier_run | reflexivity].
Qed.

(** The heap only grows, and only by the [Identifier] that [name] makes. *)
Lemma forward_heap (m : method) (p : value) (s : state) :
  heap s `prefix_of` heap (run (forward m p) s).2.
Proof.
  unfold forward. destruct (foreign_of m) as [[n a]|]; [|done].
  rewrite run_bind. pose proof (invoke_heap p n a s) as Hh.
  destruct (run (invoke p n a) s) as [[r|e|] s']; simpl in *;
    try (rewrite Hh; done).
  destruct (decide (m = M_name)).
  - rewrite new_Identifier_run. simpl. rewrite Hh. by apply prefix_app_r.
  - simpl. by rewrite Hh.
Qed.

Lemma forward_keeps (m : method) (p : value) (s : state) (l : loc) (o : obj) :
  heap s !! l = Some o → heap (run (forward m p) s).2 !! l = Some o.
Proof. intros Hl. eapply prefix_lookup_Some; [exact Hl | apply forward_heap]. Qed.

(** On a jpy proxy the log grows by the events of the table. *)
Lemma forward_calls (m : method) (h : handle) (s : state) :
  calls (run (forward m (VJava h)) s).2 = calls s ++ events_of m h.
Proof.
  unfold forward, events_of. destruct (foreign_of m) as [[n a]|]; simpl.
  - rewrite run_bind, invoke_java.
    destruct ((jinvoke h n a (world s)).1) as [e|v]; [reflexivity|].
    destruct (decide (m = M_name)); [|reflexivity].
    rewrite new_Identifier_run. reflexivity.
  - by rewrite app_nil_r.
Qed.

Lemma wraps_keeps (m : method) (p q : value) (s : state) (l : loc) (c : cls) :
  wraps s l c q → wraps (run (forward m p) s).2 l c q.
Proof.
  unfold wraps, class_of, proxy_of. intros [Hc Hq].
  destruct (heap s !! l) as [o|] eqn:Hl; [|discriminate].
  by rewrite (forward_keeps m p s l o Hl).
Qed.

Lemma dispatch_str (c : cls) : dispatch c M_str = Some IdentifiedObject.__str__.
Proof. by destruct c. Qed.

Lemma dispatch_name (c : cls) : dispatch c M_name = Some IdentifiedObject.name.
Proof. by destruct c. Qed.

End Forwarding.

(** ** Running the module on the demonstration Java side *)

Example demo_name_code :
  (run (B:=Demo.java) (crs_name_code (VJava Demo.crs_3395)) Demo.start).1 =
  Val (VStr "WGS 84 / World Mercator").
Proof. reflexivity. Qed.

Example demo_axis_in_range :
  (run (B:=Demo.java) (CoordinateSystem.axis 0 (VInt 1)) Demo.with_cs).1 =
  Val (VJava Demo.axis_northing).
Proof. reflexivity. Qed.

Example demo_axis_out_of_range :
  (run (B:=Demo.java) (CoordinateSystem.axis 0 (VInt (-1))) Demo.with_cs).1 =
  Exc (RuntimeError "java.lang.IndexOutOfBoundsException").
Proof. reflexivity. Qed.

(** The Java datum does answer [getEllipsoid]; the wrapper never asks. *)
Example demo_ellipsoid :
  (jinvoke (Bridge:=Demo.java) Demo.wgs84_datum "getEllipsoid" [] 0%nat).1 = inr (VJava 8) ∧
  run (B:=Demo.java) (GeodeticDatum.ellipsoid 0) Demo.with_datum =
  (Val VNone, Demo.with_datum) ∧
  calls Demo.with_datum = [].
Proof. repeat split; reflexivity. Qed.

(** ** The accessors that have a body *)

Section Accessors.
Context `{B : Bridge}.

(** A method with an entry in the forwarding table, called on a wrapper
    around a jpy proxy, logs one foreign call: that entry, on that proxy. *)
Lemma accessor_with_body_forwards_once (c : cls) (m : method) (f : loc → Py value)
    (n : string) (a : list value) (h : handle) (self : loc) (s : state) :
  dispatch c m = Some f → foreign_of m = Some (n, a) →
  wraps s self c (VJava h) →
  calls (run (f self) s).2 = calls s ++ [Event h n a].
Proof.
  intros Hd Hf [_ Hp].
  rewrite (dispatch_forward c m f self _ s Hd Hp), forward_calls.
  unfold events_of. by rewrite Hf.
Qed.

Lemma new_wraps (c : cls) (p : value) (s : state) :
  wraps (run (new c p) s).2 (length (heap s)) c p.
Proof.
  rewrite new_run. unfold wraps, class_of, proxy_of. simpl.
  rewrite list_lookup_middle by reflexivity. simpl.
  by rewrite lookup_singleton_eq.
Qed.

(** [v.code] on an [Identifier] instance is its [getCode] forward. *)
Lemma attribute_code_identifier (s : state) (l : loc) (q : value) :
  class_of s l = Some Metadata_Identifier → proxy_of s l = Some q →
  run (attribute_code (VRef l)) s = run (invoke q "getCode" []) s.
Proof.
  unfold class_of, proxy_of, run, attribute_code. intros Hk Hq.
  destruct (heap s !! l) as [o|] eqn:Hl; [|discriminate].
  simpl in Hk, Hq. injection Hk as Hk. rewrite Hk.
  unfold Identifier.code, mbind, Py_bind, bind, getattr.
  rewrite Hl, Hq. by destruct (invoke q "getCode" [] s) as [[r|e|] s'].
Qed.

Lemma wraps_proxy_unique (s : state) (l : loc) (c : cls) (p q : value) :
  wraps s l c p → wraps s l c q → p = q.
Proof. intros [_ Hp] [_ Hq]. congruence. Qed.

Lemma accessor_keeps (c : cls) (m : method) (f : loc → Py value) (self : loc)
    (p : value) (s : state) (l : loc) (o : obj) :
  dispatch c m = Some f → wraps s self c p →
  heap s !! l = Some o → heap (run (f self) s).2 !! l = Some o.
Proof.
  intros Hd [_ Hp]. rewrite (dispatch_forward c m f self p s Hd Hp).
  apply forward_keeps.
Qed.

Lemma accessor_wraps (c : cls) (m : method) (f : loc → Py value) (self : loc)
    (p : value) (s : state) (l : loc) (c' : cls) (q : value) :
  dispatch c m = Some f → wraps s self c p →
  wraps s l c' q → wraps (run (f self) s).2 l c' q.
Proof.
  intros Hd [Hc Hp]. rewrite (dispatch_forward c m f self p s Hd Hp).
  apply wraps_keeps.
Qed.

(** No sequence of accessor calls changes an object already on the heap. *)
Lemma after_keeps (c : cls) (w : loc) (p : value) (ms : list method) (s : state)
    (l : loc) (o : obj) :
  wraps s w c p → heap s !! l = Some o → heap (after c w ms s) !! l = Some o.
Proof.
  revert s. induction ms as [|m rest IH]; intros s Hw Hl; simpl; [done|].
  destruct (dispatch c m) as [f|] eqn:Hd; [|by apply IH].
  apply IH.
  - by apply (accessor_wraps c m f w p).
  - by apply (accessor_keeps c m f w p).
Qed.

Lemma after_wraps (c : cls) (w : loc) (p : value) (ms : list method) (s : state)
    (l : loc) (c' : cls) (q : value) :
  wraps s w c p → wraps s l c' q → wraps (after c w ms s) l c' q.
Proof.
  revert s. induction ms as [|m rest IH]; intros s Hw Hl; simpl; [done|].
  destruct (dispatch c m) as [f|] eqn:Hd; [|by apply IH].
  apply IH; by apply (accessor_wraps c m f w p).
Qed.

Lemma events_of_target (m : method) (h : handle) :
  Forall (λ ev, ev_target ev = h) (events_of m h).
Proof.
  unfold events_of. destruct (foreign_of m) as [[n a]|]; repeat constructor.
Qed.

(** Whatever is logged by accessor calls on a wrapper around [h] is a call
    on [h]. *)
Lemma after_calls (c : cls) (w : loc) (h : handle) (ms : list method) (s : state) :
  wraps s w c (VJava h) →
  ∃ evs, calls (after c w ms s) = calls s ++ evs ∧
         Forall (λ ev, ev_target ev = h) evs.
Proof.
  revert s. induction ms as [|m rest IH]; intros s Hw; simpl.
  - exists []. by rewrite app_nil_r.
  - destruct (dispatch c m) as [f|] eqn:Hd; [|by apply IH].
    destruct (IH (run (f w) s).2) as (evs & Hc & Hall).
    { by apply (accessor_wraps c m f w (VJava h)). }
    exists (events_of m h ++ evs). split.
    + rewrite Hc. destruct Hw as [_ Hp].
      rewrite (dispatch_forward c m f w _ s Hd Hp), forward_calls.
      by rewrite <- (assoc_L (++)).
    + apply Forall_app. split; [apply events_of_target | done].
Qed.

End Accessors.

(** * The claims *)

(** C1 (what the code does where the claim fails).  The claim has
    [GeodeticDatum.ellipsoid] invoke [getEllipsoid], [prime_meridian] invoke
    [getPrimeMeridian], [CoordinateSystemAxis.direction] invoke
    [getDirection] and [unit] invoke [getUnit].  In the module these four
    accessors have no body: on a freshly built wrapper around any proxy,
    whatever the Java side, each is resolved to the body-less definition,
    evaluates to [None], logs no foreign call and leaves the Java state
    untouched. *)
Theorem C1_bodiless_accessors_invoke_nothing `{B : Bridge} (p : value) (s : state) :
  let w := length (heap s) in
  let d := (run (new GeodeticDatum p) s).2 in
  let x := (run (new CoordinateSystemAxis p) s).2 in
  (dispatch GeodeticDatum M_ellipsoid = Some GeodeticDatum.ellipsoid ∧
   silent (GeodeticDatum.ellipsoid w) d) ∧
  (dispatch GeodeticDatum M_prime_meridian = Some GeodeticDatum.prime_meridian ∧
   silent (GeodeticDatum.prime_meridian w) d) ∧
  (dispatch CoordinateSystemAxis M_direction = Some CoordinateSystemAxis.direction ∧
   silent (CoordinateSystemAxis.direction w) x) ∧
  (dispatch CoordinateSystemAxis M_unit = Some CoordinateSystemAxis.unit ∧
   silent (CoordinateSystemAxis.unit w) x).
Proof. repeat split. Qed.

(** C2.  Whenever the Java CRS behind handle [h] answers [getName] with an
    identifier [i], and [i] answers [getCode] with the string
    "WGS 84 / World Mercator", the test's expression
    [CoordinateReferenceSystem(h).name.code] evaluates to that very string.
    On the way the [name] of a [CoordinateReferenceSystem] is the one
    inherited from [IdentifiedObject], the wrapper and the [Identifier] are
    the two objects allocated, and two foreign calls are made. *)
Theorem C2_world_mercator_name_code `{B : Bridge} (h i : handle) (s : state)
    (w1 w2 : jstate) :
  jinvoke h "getName" [] (world s) = (inr (VJava i), w1) →
  jinvoke i "getCode" [] w1 = (inr (VStr "WGS 84 / World Mercator"), w2) →
  dispatch CoordinateReferenceSystem M_name = Some IdentifiedObject.name ∧
  run (crs_name_code (VJava h)) s =
  (Val (VStr "WGS 84 / World Mercator"),
   State (heap s ++ [Obj (Referencing CoordinateReferenceSystem) {["_proxy" := VJava h]};
                     Obj Metadata_Identifier {["_proxy" := VJava i]}])
         w2
         (calls s ++ [Event h "getName" []; Event i "getCode" []])).
Proof.
  intros Hname Hcode. split; [reflexivity|].
  unfold crs_name_code. rewrite run_bind, new_run, run_bind.
  set (s1 := State _ _ _).
  assert (Hp : proxy_of s1 (length (heap s)) = Some (VJava h)).
  { unfold proxy_of, s1. simpl. rewrite list_lookup_middle by reflexivity.
    simpl. by rewrite lookup_singleton_eq. }
  unfold IdentifiedObject.name.
  rewrite run_bind, (getattr_proxy _ _ _ Hp), run_bind, invoke_java.
  replace (world s1) with (world s) by reflexivity.
  rewrite Hname. cbn [fst snd]. rewrite new_Identifier_run.
  cbn [heap world calls].
  set (s2 := State _ _ _).
  assert (Hk : class_of s2 (length (heap s1)) = Some Metadata_Identifier).
  { unfold class_of, s2. cbn [heap]. by rewrite list_lookup_middle. }
  assert (Hq : proxy_of s2 (length (heap s1)) = Some (VJava i)).
  { unfold proxy_of, s2. cbn [heap]. rewrite list_lookup_middle by reflexivity.
    simpl. by rewrite lookup_singleton_eq. }
  rewrite (attribute_code_identifier _ _ _ Hk Hq), invoke_java.
  replace (world s2) with w1 by reflexivity.
  rewrite Hcode. unfold s2, s1. cbn [fst snd heap calls].
  by rewrite <- !(assoc_L (++)).
Qed.

Lemma C2_world_mercator_witness :
  jinvoke (Bridge:=Demo.java) Demo.crs_3395 "getName" [] 0%nat =
    (inr (VJava Demo.crs_3395_name), 1%nat) ∧
  run (B:=Demo.java) (crs_name_code (VJava Demo.crs_3395)) Demo.start =
  (Val (VStr "WGS 84 / World Mercator"),
   State [Obj (Referencing CoordinateReferenceSystem) {["_proxy" := VJava 1%nat]};
          Obj Metadata_Identifier {["_proxy" := VJava 2%nat]}]
         (2%nat : @jstate Demo.java)
         [Event 1 "getName" []; Event 2 "getCode" []]).
Proof.
  split; [reflexivity|].
  apply (C2_world_mercator_name_code (B:=Demo.java)
           Demo.crs_3395 Demo.crs_3395_name Demo.start 1%nat 2%nat);
    reflexivity.
Defined.

(** C3.  Every class of the module resolves [__str__] to the one of
    [IdentifiedObject], and on a wrapper around any proxy [p] that method
    is [p.toString()] and nothing else: same result or same exception,
    same state afterwards.  Hence whenever [p.toString()] yields a string,
    [str(wrapper)] is that string, unmodified. *)
Theorem C3_str_is_foreign_toString `{B : Bridge} (c : cls) (self : loc)
    (p : value) (s : state) :
  wraps s self c p →
  ∃ f, dispatch c M_str = Some f ∧
       run (f self) s = run (invoke p "toString" []) s ∧
       ∀ t s', run (invoke p "toString" []) s = (Val (VStr t), s') →
               run (str (f self)) s = (Val (VStr t), s').
Proof.
  intros [_ Hp]. exists IdentifiedObject.__str__.
  assert (Hrun : run (IdentifiedObject.__str__ self) s
                 = run (invoke p "toString" []) s).
  { rewrite (dispatch_forward c M_str _ self p s (dispatch_str c) Hp).
    by apply forward_raw. }
  split; [apply dispatch_str|]. split; [exact Hrun|].
  intros t s' Ht. unfold str. by rewrite run_bind, Hrun, Ht.
Qed.

Lemma C3_str_witness :
  wraps Demo.with_crs 0 CoordinateReferenceSystem (VJava Demo.crs_3395) ∧
  ∃ f, dispatch (B:=Demo.java) CoordinateReferenceSystem M_str = Some f ∧
       run (f 0%nat) Demo.with_crs
       = run (invoke (VJava Demo.crs_3395) "toString" []) Demo.with_crs ∧
       ∀ t s', run (invoke (VJava Demo.crs_3395) "toString" []) Demo.with_crs
               = (Val (VStr t), s') →
               run (str (f 0%nat)) Demo.with_crs = (Val (VStr t), s').
Proof.
  split; [split; reflexivity|].
  apply (C3_str_is_foreign_toString (B:=Demo.java)
           CoordinateReferenceSystem 0%nat (VJava Demo.crs_3395) Demo.with_crs).
  split; reflexivity.
Defined.

(** C4.  Wrapping the same proxy [p] twice in class [c] gives two wrappers
    at different addresses, each holding [p].  Whatever accessors [ms] the
    caller then runs on the first, the second is the object it was, and any
    accessor of the second is still the plain forward to [p]: the first
    wrapper, and what was done with it, do not occur in it.  When [p] is a
    jpy proxy of [h], every foreign call logged since the two constructions,
    by either wrapper, is a call on [h]. *)
Theorem C4_two_wrappers_one_handle `{B : Bridge} (c : cls) (p : value) (s : state) :
  let w1 := length (heap s) in
  let s1 := (run (new c p) s).2 in
  let w2 := length (heap s1) in
  let s2 := (run (new c p) s1).2 in
  (run (new c p) s).1 = Val w1 ∧ (run (new c p) s1).1 = Val w2 ∧
  w1 ≠ w2 ∧ wraps s2 w1 c p ∧ wraps s2 w2 c p ∧
  ∀ ms : list method,
    let s3 := after c w1 ms s2 in
    heap s3 !! w2 = heap s2 !! w2 ∧
    ∀ (m : method) (f : loc → Py value), dispatch c m = Some f →
      run (f w2) s3 = run (forward m p) s3 ∧
      ∀ h, p = VJava h → targets_only h (length (calls s)) (run (f w2) s3).2.
Proof.
  intros w1 s1 w2 s2.
  assert (H1 : wraps s1 w1 c p) by apply new_wraps.
  assert (H2 : wraps s2 w2 c p) by apply new_wraps.
  assert (H12 : wraps s2 w1 c p).
  { destruct H1 as [Hc Hp]. unfold wraps, class_of, proxy_of in *.
    unfold s2. rewrite new_run. simpl.
    destruct (heap s1 !! w1) as [o|] eqn:Hl; [|discriminate].
    by rewrite (lookup_app_l_Some _ _ _ _ Hl). }
  assert (Hcalls : calls s2 = calls s).
  { unfold s2, s1. by rewrite !new_run. }
  split; [unfold s1; by rewrite new_run|].
  split; [unfold s1; by rewrite new_run|].
  split.
  { unfold w2, s1, w1. rewrite new_run. simpl. rewrite length_app. simpl. lia. }
  split; [exact H12|]. split; [exact H2|].
  intros ms s3.
  assert (H3 : wraps s3 w2 c p) by apply (after_wraps c w1 p ms s2 w2 c p H12 H2).
  split.
  { destruct H2 as [Hc _]. unfold class_of in Hc.
    destruct (heap s2 !! w2) as [o|] eqn:Hl; [|discriminate].
    apply (after_keeps c w1 p ms s2 w2 o H12 Hl). }
  intros m f Hd. destruct H3 as [_ Hp3].
  split; [by apply (dispatch_forward c m f)|].
  intros h ->.
  destruct (after_calls c w1 h ms s2 H12) as (evs & Hev & Hall).
  unfold targets_only.
  rewrite (dispatch_forward c m f w2 _ _ Hd Hp3), forward_calls.
  fold s3 in Hev. rewrite Hev, Hcalls.
  rewrite <- (assoc_L (++)), drop_app_length.
  apply Forall_app. split; [done | apply events_of_target].
Qed.

Lemma C4_two_wrappers_witness :
  let s2 := (run (B:=Demo.java) (new CoordinateReferenceSystem (VJava Demo.crs_3395))
               Demo.with_crs).2 in
  let s3 := after CoordinateReferenceSystem 0 [M_name; M_datum] s2 in
  dispatch (B:=Demo.java) CoordinateReferenceSystem M_datum
    = Some CoordinateReferenceSystem.datum ∧
  heap s3 !! 1%nat = heap s2 !! 1%nat ∧
  run (CoordinateReferenceSystem.datum 1) s3
    = run (forward M_datum (VJava Demo.crs_3395)) s3 ∧
  targets_only Demo.crs_3395 0 (run (CoordinateReferenceSystem.datum 1) s3).2.
Proof.
  intros s2 s3.
  pose proof (C4_two_wrappers_one_handle (B:=Demo.java)
                CoordinateReferenceSystem (VJava Demo.crs_3395) Demo.start)
    as (_ & _ & _ & _ & _ & Hafter).
  destruct (Hafter [M_name; M_datum]) as [Hsame Hcall].
  destruct (Hcall M_datum CoordinateReferenceSystem.datum eq_refl) as [Hfwd Htgt].
  split; [reflexivity|]. split; [exact Hsame|]. split; [exact Hfwd|].
  exact (Htgt Demo.crs_3395 eq_refl).
Defined.

(** C5.  An accessor call changes no object that is on the heap, so the
    wrapper still holds the same proxy afterwards, and so after any
    sequence of accessor calls.  Nothing is remembered from one call to the
    next: a repeated call is again the plain forward against the Java state
    of the moment, and on a jpy proxy it logs again what the first call
    logged; for an accessor whose body names a Java accessor that is one
    more call of it, answered by the Java side in its current state. *)
Theorem C5_accessors_reread `{B : Bridge} (c : cls) (m : method)
    (f : loc → Py value) (self : loc) (p : value) (s : state) :
  dispatch c m = Some f → wraps s self c p →
  let s1 := (run (f self) s).2 in
  let s2 := (run (f self) s1).2 in
  (∀ l o, heap s !! l = Some o → heap s1 !! l = Some o) ∧
  wraps s1 self c p ∧
  (∀ ms, wraps (after c self ms s) self c p) ∧
  run (f self) s1 = run (forward m p) s1 ∧
  ∀ h, p = VJava h →
    calls s1 = calls s ++ events_of m h ∧
    calls s2 = calls s1 ++ events_of m h ∧
    ∀ n a, foreign_of m = Some (n, a) →
      calls s2 = calls s ++ [Event h n a; Event h n a] ∧
      (m ≠ M_name →
       (run (f self) s1).1 =
       match (jinvoke h n a (world s1)).1 with inl e => Exc e | inr v => Val v end).
Proof.
  intros Hd Hw s1 s2.
  assert (Hw1 : wraps s1 self c p) by apply (accessor_wraps c m f self p s self c p Hd Hw Hw).
  split; [intros l o; apply (accessor_keeps c m f self p s l o Hd Hw)|].
  split; [exact Hw1|].
  split; [intros ms; by apply (after_wraps c self p ms s self c p)|].
  split; [apply (dispatch_forward c m f self p s1 Hd), Hw1|].
  intros h ->.
  assert (Hc1 : calls s1 = calls s ++ events_of m h).
  { unfold s1. destruct Hw as [_ Hp].
    by rewrite (dispatch_forward c m f self _ s Hd Hp), forward_calls. }
  assert (Hc2 : calls s2 = calls s1 ++ events_of m h).
  { unfold s2. destruct Hw1 as [_ Hp].
    by rewrite (dispatch_forward c m f self _ s1 Hd Hp), forward_calls. }
  split; [exact Hc1|]. split; [exact Hc2|].
  intros n a Hf. split.
  - rewrite Hc2, Hc1. unfold events_of. rewrite Hf. by rewrite <- (assoc_L (++)).
  - intros Hm. destruct Hw1 as [_ Hp].
    rewrite (dispatch_forward c m f self _ s1 Hd Hp).
    by rewrite (forward_raw m _ n a s1 Hf Hm), invoke_java.
Qed.

Lemma C5_accessors_reread_witness :
  let s1 := (run (B:=Demo.java) (CoordinateSystem.dimension 0) Demo.with_cs).2 in
  let s2 := (run (B:=Demo.java) (CoordinateSystem.dimension 0) s1).2 in
  wraps Demo.with_cs 0 CartesianCS (VJava Demo.cartesian_cs) ∧
  wraps s1 0 CartesianCS (VJava Demo.cartesian_cs) ∧
  calls s2 = calls Demo.with_cs ++ [Event Demo.cartesian_cs "getDimension" [];
                                    Event Demo.cartesian_cs "getDimension" []] ∧
  (run (B:=Demo.java) (CoordinateSystem.dimension 0) s1).1 =
  match (jinvoke (Bridge:=Demo.java) Demo.cartesian_cs "getDimension" [] (world s1)).1
  with inl e => Exc e | inr v => Val v end.
Proof.
  intros s1 s2.
  assert (Hw : wraps Demo.with_cs 0 CartesianCS (VJava Demo.cartesian_cs))
    by (split; reflexivity).
  pose proof (C5_accessors_reread (B:=Demo.java) CartesianCS M_dimension
                CoordinateSystem.dimension 0%nat (VJava Demo.cartesian_cs)
                Demo.with_cs eq_refl Hw) as (_ & Hw1 & _ & _ & Hlog).
  destruct (Hlog Demo.cartesian_cs eq_refl) as (_ & _ & Hread).
  destruct (Hread "getDimension" [] eq_refl) as [Htwice Hfresh].
  split; [exact Hw|]. split; [exact Hw1|]. split; [exact Htwice|].
  apply Hfresh. discriminate.
Defined.

(** C6.  An accessor raises exactly when the bridge call of its body
    raises, and then it raises that same exception in that same state: the
    foreign call has been made once, nothing has run after it, nothing was
    caught, replaced or tried again.  The bridge call stands for
    [proxy.accessor(args)] as a whole, so a proxy that lacks the method (or
    is [None]) is covered as well as an exception thrown on the Java
    side. *)
Theorem C6_failures_propagate_unmodified `{B : Bridge} (c : cls) (m : method)
    (f : loc → Py value) (self : loc) (p : value) (s s' : state) (e : exn) :
  dispatch c m = Some f → wraps s self c p →
  (run (f self) s = (Exc e, s') ↔
   ∃ n a, foreign_of m = Some (n, a) ∧ run (invoke p n a) s = (Exc e, s')).
Proof.
  intros Hd [_ Hp]. rewrite (dispatch_forward c m f self p s Hd Hp).
  apply forward_raises.
Qed.

Lemma C6_failures_propagate_witness :
  wraps Demo.with_cs 0 CartesianCS (VJava Demo.cartesian_cs) ∧
  run (B:=Demo.java) (CoordinateSystem.axis 0 (VInt 7)) Demo.with_cs =
  (Exc (RuntimeError "java.lang.IndexOutOfBoundsException"),
   State (heap Demo.with_cs) (1%nat : @jstate Demo.java)
         [Event Demo.cartesian_cs "getAxis" [VInt 7]]).
Proof.
  assert (Hw : wraps Demo.with_cs 0 CartesianCS (VJava Demo.cartesian_cs))
    by (split; reflexivity).
  split; [exact Hw|].
  apply (C6_failures_propagate_unmodified (B:=Demo.java) CartesianCS (M_axis (VInt 7))
           (λ self, CoordinateSystem.axis self (VInt 7)) 0%nat
           (VJava Demo.cartesian_cs) Demo.with_cs _ _ eq_refl Hw).
  exists "getAxis", [VInt 7]. split; reflexivity.
Defined.

(** C7.  The non-null proxy is a precondition of construction, the
    caller's to meet (the test builds the wrapper under [if value:]).  For
    every class, whenever the constructor is given a proxy that is not
    [None], it returns a wrapper whose stored proxy is that argument and
    hence not [None]; and the wrapper never comes to hold [None] later:
    after any sequence of accessor calls on it, its stored proxy is still
    that same non-null argument. *)
Theorem C7_proxy_non_null_at_construction `{B : Bridge} (c : cls) (p : value)
    (s : state) :
  p ≠ VNone →
  let l := length (heap s) in
  let s' := (run (new c p) s).2 in
  (run (new c p) s).1 = Val l ∧
  wraps s' l c p ∧
  proxy_of s' l ≠ Some VNone ∧
  ∀ ms : list method,
    proxy_of (after c l ms s') l = Some p ∧
    proxy_of (after c l ms s') l ≠ Some VNone.
Proof.
  intros Hnn l s'. pose proof (new_wraps c p s) as Hw. fold s' l in Hw.
  split; [by rewrite new_run|]. split; [exact Hw|].
  split.
  { destruct Hw as [_ Hp]. rewrite Hp. congruence. }
  intros ms. destruct (after_wraps c l p ms s' l c p Hw Hw) as [_ Hp].
  rewrite Hp. split; congruence.
Qed.

Lemma C7_proxy_non_null_witness :
  VJava Demo.crs_3395 ≠ VNone ∧
  (run (B:=Demo.java) (new CoordinateReferenceSystem (VJava Demo.crs_3395)) Demo.start).1
    = Val 0%nat ∧
  proxy_of Demo.with_crs 0 ≠ Some VNone ∧
  proxy_of (after (B:=Demo.java) CoordinateReferenceSystem 0
              [M_name; M_datum; M_axis (VInt 3); M_str] Demo.with_crs) 0
    ≠ Some VNone.
Proof.
  assert (Hnn : VJava Demo.crs_3395 ≠ VNone) by discriminate.
  destruct (C7_proxy_non_null_at_construction (B:=Demo.java) CoordinateReferenceSystem
              (VJava Demo.crs_3395) Demo.start Hnn) as (Hval & _ & Hnow & Hlater).
  split; [exact Hnn|]. split; [exact Hval|]. split; [exact Hnow|].
  exact (proj2 (Hlater [M_name; M_datum; M_axis (VInt 3); M_str])).
Defined.

(** C8.  An operation whose body names the Java accessor [n] with
    arguments [a] is, on a wrapper around [p], the call [p.n(a)] and
    nothing else: it returns what the call returns (inside a new
    [Identifier] for [name]), raises what it raises, and leaves the state
    the call leaves.  Nothing but [p], [n] and [a] enters, and no test of an
    argument or of a result stands between the caller and the bridge.  For
    [axis(dim)] the call is [getAxis(dim)] with [dim] as given, whatever
    value it is: a negative or too large index is judged by the Java side
    alone. *)
Theorem C8_no_validation `{B : Bridge} (c : cls) (m : method) (f : loc → Py value)
    (self : loc) (p : value) (s : state) (n : string) (a : list value) :
  dispatch c m = Some f → wraps s self c p → foreign_of m = Some (n, a) →
  run (f self) s =
    run (r ← invoke p n a; if decide (m = M_name) then new_Identifier r else mret r) s ∧
  (m ≠ M_name → run (f self) s = run (invoke p n a) s) ∧
  (∀ dim, m = M_axis dim →
     n = "getAxis" ∧ a = [dim] ∧
     run (f self) s = run (invoke p "getAxis" [dim]) s).
Proof.
  intros Hd [_ Hp] Hf. rewrite (dispatch_forward c m f self p s Hd Hp).
  split; [unfold forward; by rewrite Hf|].
  split; [intros Hm; by apply forward_raw|].
  intros dim ->. simpl in Hf. injection Hf as <- <-.
  split; [done|]. split; [done|]. by apply forward_raw.
Qed.

Lemma C8_no_validation_witness :
  wraps Demo.with_cs 0 CartesianCS (VJava Demo.cartesian_cs) ∧
  run (B:=Demo.java) (CoordinateSystem.axis 0 (VInt (-1))) Demo.with_cs =
  run (B:=Demo.java) (invoke (VJava Demo.cartesian_cs) "getAxis" [VInt (-1)]) Demo.with_cs ∧
  calls (run (B:=Demo.java) (CoordinateSystem.axis 0 (VInt (-1))) Demo.with_cs).2 =
  [Event Demo.cartesian_cs "getAxis" [VInt (-1)]].
Proof.
  assert (Hw : wraps Demo.with_cs 0 CartesianCS (VJava Demo.cartesian_cs))
    by (split; reflexivity).
  split; [exact Hw|].
  destruct (C8_no_validation (B:=Demo.java) CartesianCS (M_axis (VInt (-1)))
              (λ self, CoordinateSystem.axis self (VInt (-1))) 0%nat
              (VJava Demo.cartesian_cs) Demo.with_cs "getAxis" [VInt (-1)]
              eq_refl Hw eq_refl) as (_ & _ & Haxis).
  destruct (Haxis (VInt (-1)) eq_refl) as (_ & _ & Hrun).
  split; [exact Hrun|]. rewrite Hrun. reflexivity.
Defined.

(** C9.  For every class and every value [p], [None] included, the
    constructor returns a new wrapper whose [__dict__] is exactly
    [{_proxy: p}]; the Java state and the call log are what they were, and
    no exception is raised.  A [None] proxy shows only later: on such a
    wrapper every accessor whose body names a Java accessor raises the
    [AttributeError] of [None], without reaching the bridge. *)
Theorem C9_construction_stores_verbatim `{B : Bridge} (c : cls) (p : value)
    (s : state) :
  run (new c p) s =
  (Val (length (heap s)),
   State (heap s ++ [Obj (Referencing c) {["_proxy" := p]}]) (world s) (calls s)) ∧
  ∀ (m : method) (f : loc → Py value) (n : string) (a : list value),
    dispatch c m = Some f → foreign_of m = Some (n, a) →
    let s' := (run (new c VNone) s).2 in
    run (f (length (heap s))) s' = (Exc (no_attribute "NoneType" n), s').
Proof.
  split; [apply new_run|].
  intros m f n a Hd Hf s'.
  destruct (new_wraps c VNone s) as [_ Hp]. fold s' in Hp.
  rewrite (dispatch_forward c m f _ VNone s' Hd Hp).
  apply forward_raises. exists n, a. by split.
Qed.

Lemma C9_construction_witness :
  run (B:=Demo.java) (new ProjectedCRS VNone) Demo.start =
  (Val 0%nat,
   State [Obj (Referencing ProjectedCRS) {["_proxy" := VNone]}]
         (0%nat : @jstate Demo.java) []) ∧
  let s' := (run (B:=Demo.java) (new ProjectedCRS VNone) Demo.start).2 in
  run (ProjectedCRS.base_crs 0) s' = (Exc (no_attribute "NoneType" "getBaseCRS"), s').
Proof.
  destruct (C9_construction_stores_verbatim (B:=Demo.java) ProjectedCRS VNone Demo.start)
    as [Hnew Hlater].
  split; [exact Hnew|].
  exact (Hlater M_base_crs ProjectedCRS.base_crs "getBaseCRS" [] eq_refl eq_refl).
Defined.

(** C10.  Let the bridge call of an accessor return [r].  If the accessor
    is [name], the caller gets a reference to a new [Identifier] whose
    proxy is [r].  If it is any other accessor ([to_wkt], [__str__],
    [abbreviation], [dimension], [axis], [coordinate_system], [datum],
    [base_crs]), the caller gets [r] itself and nothing is allocated. *)
Theorem C10_only_name_wraps `{B : Bridge} (c : cls) (m : method)
    (f : loc → Py value) (self : loc) (p : value) (s s' : state)
    (n : string) (a : list value) (r : value) :
  dispatch c m = Some f → wraps s self c p → foreign_of m = Some (n, a) →
  run (invoke p n a) s = (Val r, s') →
  (m = M_name →
   run (f self) s =
   (Val (VRef (length (heap s'))),
    State (heap s' ++ [Obj Metadata_Identifier {["_proxy" := r]}])
          (world s') (calls s'))) ∧
  (m ≠ M_name → run (f self) s = (Val r, s') ∧ heap s' = heap s).
Proof.
  intros Hd [_ Hp] Hf Hr.
  rewrite (dispatch_forward c m f self p s Hd Hp).
  rewrite (forward_returns m p n a r s s' Hf Hr).
  split; intros Hm; destruct (decide (m = M_name)); try done.
  split; [done|]. pose proof (invoke_heap p n a s) as Hh. by rewrite Hr in Hh.
Qed.

Lemma C10_only_name_wraps_witness :
  wraps Demo.with_crs 0 CoordinateReferenceSystem (VJava Demo.crs_3395) ∧
  run (B:=Demo.java) (IdentifiedObject.name 0) Demo.with_crs =
  (Val (VRef 1),
   State (heap Demo.with_crs ++ [Obj Metadata_Identifier {["_proxy" := VJava Demo.crs_3395_name]}])
         (1%nat : @jstate Demo.java) [Event Demo.crs_3395 "getName" []]) ∧
  run (B:=Demo.java) (CoordinateReferenceSystem.datum 0) Demo.with_crs =
  (Val (VJava Demo.wgs84_datum),
   State (heap Demo.with_crs) (1%nat : @jstate Demo.java)
         [Event Demo.crs_3395 "getDatum" []]).
Proof.
  assert (Hw : wraps Demo.with_crs 0 CoordinateReferenceSystem (VJava Demo.crs_3395))
    by (split; reflexivity).
  split; [exact Hw|]. split.
  - refine (proj1 (C10_only_name_wraps (B:=Demo.java) CoordinateReferenceSystem M_name
                     IdentifiedObject.name 0%nat (VJava Demo.crs_3395) Demo.with_crs
                     _ "getName" [] (VJava Demo.crs_3395_name)
                     eq_refl Hw eq_refl eq_refl) eq_refl).
  - refine (proj1 (proj2 (C10_only_name_wraps (B:=Demo.java) CoordinateReferenceSystem
                     M_datum CoordinateReferenceSystem.datum 0%nat
                     (VJava Demo.crs_3395) Demo.with_crs
                     _ "getDatum" [] (VJava Demo.wgs84_datum)
                     eq_refl Hw eq_refl eq_refl) _)).
    discriminate.
Defined.

(** * Further properties of the module *)

Section More.
Context `{B : Bridge}.

(** The test's expression [CoordinateReferenceSystem(h).name.code] when
    [getName] gives the identifier [i] and [getCode] on it gives [r]. *)
Lemma crs_name_code_java (h i : handle) (r : value) (s : state) (w1 w2 : jstate) :
  jinvoke h "getName" [] (world s) = (inr (VJava i), w1) →
  jinvoke i "getCode" [] w1 = (inr r, w2) →
  run (crs_name_code (VJava h)) s =
  (Val r,
   State (heap s ++ [Obj (Referencing CoordinateReferenceSystem) {["_proxy" := VJava h]};
                     Obj Metadata_Identifier {["_proxy" := VJava i]}])
         w2
         (calls s ++ [Event h "getName" []; Event i "getCode" []])).
Proof.
  intros Hname Hcode.
  unfold crs_name_code. rewrite run_bind, new_run, run_bind.
  set (s1 := State _ _ _).
  assert (Hp : proxy_of s1 (length (heap s)) = Some (VJava h)).
  { unfold proxy_of, s1. simpl. rewrite list_lookup_middle by reflexivity.
    simpl. by rewrite lookup_singleton_eq. }
  unfold IdentifiedObject.name.
  rewrite run_bind, (getattr_proxy _ _ _ Hp), run_bind, invoke_java.
  replace (world s1) with (world s) by reflexivity.
  rewrite Hname. cbn [fst snd]. rewrite new_Identifier_run.
  cbn [heap world calls].
  set (s2 := State _ _ _).
  assert (Hk : class_of s2 (length (heap s1)) = Some Metadata_Identifier).
  { unfold class_of, s2. cbn [heap]. by rewrite list_lookup_middle. }
  assert (Hq : proxy_of s2 (length (heap s1)) = Some (VJava i)).
  { unfold proxy_of, s2. cbn [heap]. rewrite list_lookup_middle by reflexivity.
    simpl. by rewrite lookup_singleton_eq. }
  rewrite (attribute_code_identifier _ _ _ Hk Hq), invoke_java.
  replace (world s2) with w1 by reflexivity.
  rewrite Hcode. unfold s2, s1. cbn [fst snd heap calls].
  by rewrite <- !(assoc_L (++)).
Qed.

(** Calling a Java accessor on [None], an [int] or a [str] fails on the
    Python side. *)
Lemma invoke_builtin_type (p : value) (n : string) (a : list value) (s : state)
    (tn : string) :
  builtin_type p = Some tn →
  run (invoke p n a) s = (Exc (no_attribute tn n), s).
Proof.
  unfold builtin_type, run, invoke.
  destruct p as [| | |h|l]; try (intros [= <-]; reflexivity); discriminate.
Qed.

(** Storing a proxy in an object that exists. *)
Lemma setattr_proxy_run (l : loc) (q : value) (s : state) (o : obj) :
  heap s !! l = Some o →
  run (setattr l "_proxy" q) s =
  (Val (),
   State (<[l := Obj (obj_class o) (<["_proxy" := q]> (obj_dict o))]> (heap s))
         (world s) (calls s)).
Proof. intros Hl. unfold run, setattr. by rewrite Hl. Qed.

Lemma init_is_one_store (c : cls) (l : loc) (q : value) (s : state) :
  run (init c l q) s = run (setattr l "_proxy" q) s.
Proof. by destruct c. Qed.

Lemma after_log (c : cls) (w : loc) (h : handle) (ms : list method) (s : state) :
  wraps s w c (VJava h) →
  calls (after c w ms s) = calls s ++ concat (logged c h <$> ms).
Proof.
  revert s. induction ms as [|m rest IH]; intros s Hw; simpl.
  - by rewrite app_nil_r.
  - unfold logged at 1. destruct (dispatch c m) as [f|] eqn:Hd; [|by apply IH].
    rewrite IH by (by apply (accessor_wraps c m f w (VJava h))).
    destruct Hw as [_ Hp].
    rewrite (dispatch_forward c m f w _ s Hd Hp), forward_calls.
    by rewrite <- (assoc_L (++)).
Qed.

End More.

(** X1.  Each of the nine accessors with a body, called on a wrapper around
    a jpy proxy of [h], makes one foreign call and no other: the Java
    accessor its body names, on [h], with the caller's arguments.  The Java
    state afterwards is the one that call left, and an exception of the
    call is the accessor's exception. *)
Theorem X1_body_forwards_exactly_once `{B : Bridge} (c : cls) (m : method)
    (f : loc → Py value) (n : string) (a : list value) (h : handle)
    (self : loc) (s : state) :
  dispatch c m = Some f → foreign_of m = Some (n, a) →
  wraps s self c (VJava h) →
  calls (run (f self) s).2 = calls s ++ [Event h n a] ∧
  world (run (f self) s).2 = (jinvoke h n a (world s)).2 ∧
  ∀ e, (jinvoke h n a (world s)).1 = inl e → (run (f self) s).1 = Exc e.
Proof.
  intros Hd Hf [_ Hp].
  rewrite (dispatch_forward c m f self _ s Hd Hp).
  unfold forward. rewrite Hf, run_bind, invoke_java.
  destruct ((jinvoke h n a (world s)).1) as [e|v] eqn:Hr.
  - repeat split. by intros e' [= <-].
  - destruct (decide (m = M_name)).
    + rewrite new_Identifier_run. repeat split. discriminate.
    + repeat split. discriminate.
Qed.

Lemma X1_body_forwards_witness :
  wraps Demo.with_crs 0 CoordinateReferenceSystem (VJava Demo.crs_3395) ∧
  calls (run (B:=Demo.java) (CoordinateReferenceSystem.coordinate_system 0)
           Demo.with_crs).2
  = [Event Demo.crs_3395 "getCoordinateSystem" []] ∧
  world (run (B:=Demo.java) (CoordinateReferenceSystem.coordinate_system 0)
           Demo.with_crs).2 = 1%nat.
Proof.
  assert (Hw : wraps Demo.with_crs 0 CoordinateReferenceSystem (VJava Demo.crs_3395))
    by (split; reflexivity).
  destruct (X1_body_forwards_exactly_once (B:=Demo.java) CoordinateReferenceSystem
              M_coordinate_system CoordinateReferenceSystem.coordinate_system
              "getCoordinateSystem" [] Demo.crs_3395 0%nat Demo.with_crs
              eq_refl eq_refl Hw) as (Hlog & Hworld & _).
  split; [exact Hw|]. split; [exact Hlog | exact Hworld].
Defined.

(** X2.  When the stored proxy is [None], an [int] or a [str] (the caller
    passed, say, the code "EPSG:3395" instead of the object found for it),
    every accessor with a body raises an [AttributeError] that names the
    type of the proxy and the Java accessor, and nothing else happens: no
    foreign call, no allocation, the state is the one before the call. *)
Theorem X2_builtin_proxy_fails_locally `{B : Bridge} (c : cls) (m : method)
    (f : loc → Py value) (n : string) (a : list value) (self : loc)
    (p : value) (s : state) (tn : string) :
  dispatch c m = Some f → foreign_of m = Some (n, a) →
  wraps s self c p → builtin_type p = Some tn →
  run (f self) s = (Exc (no_attribute tn n), s).
Proof.
  intros Hd Hf [_ Hp] Ht.
  rewrite (dispatch_forward c m f self p s Hd Hp).
  apply forward_raises. exists n, a. split; [done|].
  by apply invoke_builtin_type.
Qed.

Lemma X2_builtin_proxy_witness :
  wraps DemoStates.with_code_string 0 CoordinateReferenceSystem (VStr "EPSG:3395") ∧
  builtin_type (VStr "EPSG:3395") = Some "str" ∧
  run (B:=Demo.java) (IdentifiedObject.name 0) DemoStates.with_code_string =
  (Exc (AttributeError "'str' object has no attribute 'getName'"),
   DemoStates.with_code_string).
Proof.
  assert (Hw : wraps DemoStates.with_code_string 0 CoordinateReferenceSystem
                 (VStr "EPSG:3395"))
    by (split; reflexivity).
  split; [exact Hw|]. split; [reflexivity|].
  exact (X2_builtin_proxy_fails_locally (B:=Demo.java) CoordinateReferenceSystem
           M_name IdentifiedObject.name "getName" [] 0%nat (VStr "EPSG:3395")
           DemoStates.with_code_string "str"
           eq_refl eq_refl Hw eq_refl).
Defined.

(** X3.  No class of the module overrides an accessor: whichever classes
    provide [m], they provide the same function, so what an accessor does
    never depends on the class of the wrapper.  Every class provides
    [name], [to_wkt] and [__str__].  [CartesianCS] and [EllipsoidalCS]
    provide exactly what [CoordinateSystem] provides, and [GeographicCRS]
    exactly what [CoordinateReferenceSystem] provides. *)
Theorem X3_no_accessor_is_overridden `{B : Bridge} :
  (∀ (c c' : cls) (m : method) (f f' : loc → Py value),
     dispatch c m = Some f → dispatch c' m = Some f' → f = f') ∧
  (∀ c : cls, is_Some (dispatch c M_name) ∧ is_Some (dispatch c M_to_wkt) ∧
              is_Some (dispatch c M_str)) ∧
  (∀ m : method,
     dispatch CartesianCS m = dispatch CoordinateSystem m ∧
     dispatch EllipsoidalCS m = dispatch CoordinateSystem m ∧
     dispatch GeographicCRS m = dispatch CoordinateReferenceSystem m).
Proof.
  split; [|split].
  - intros c c' m f f' Hd Hd'.
    destruct m; destruct c; simpl in Hd; try discriminate;
      destruct c'; simpl in Hd'; try discriminate;
      injection Hd as <-; injection Hd' as <-; reflexivity.
  - intros c. destruct c; repeat split; eexists; reflexivity.
  - intros m. destruct m; repeat split; reflexivity.
Qed.

Lemma X3_no_override_witness :
  dispatch (B:=Demo.java) CartesianCS (M_axis (VInt 1))
  = Some (λ self, CoordinateSystem.axis self (VInt 1)) ∧
  dispatch (B:=Demo.java) EllipsoidalCS (M_axis (VInt 1))
  = Some (λ self, CoordinateSystem.axis self (VInt 1)) ∧
  (λ self, CoordinateSystem.axis (B:=Demo.java) self (VInt 1))
  = (λ self, CoordinateSystem.axis self (VInt 1)).
Proof.
  split; [reflexivity|]. split; [reflexivity|].
  exact (proj1 (X3_no_accessor_is_overridden (B:=Demo.java))
           CartesianCS EllipsoidalCS (M_axis (VInt 1)) _ _ eq_refl eq_refl).
Defined.

(** X4.  [ProjectedCRS] derives from [IdentifiedObject], not from
    [CoordinateReferenceSystem]: the module provides it with [name],
    [to_wkt], [__str__] and [base_crs] and with nothing else.  In
    particular it gets neither [coordinate_system] nor [datum], which
    [CoordinateReferenceSystem] and [GeographicCRS] have, and [base_crs] is
    provided to no other class. *)
Theorem X4_projected_crs_accessors `{B : Bridge} :
  (∀ m : method,
     is_Some (dispatch ProjectedCRS m) ↔
     m = M_name ∨ m = M_to_wkt ∨ m = M_str ∨ m = M_base_crs) ∧
  (∀ c : cls,
     is_Some (dispatch c M_coordinate_system) ↔
     c = CoordinateReferenceSystem ∨ c = GeographicCRS) ∧
  (∀ c : cls,
     is_Some (dispatch c M_datum) ↔
     c = CoordinateReferenceSystem ∨ c = GeographicCRS) ∧
  (∀ c : cls, is_Some (dispatch c M_base_crs) ↔ c = ProjectedCRS).
Proof.
  split; [|split; [|split]].
  - intros m. split.
    + intros [g Hg]. destruct m; simpl in Hg; try discriminate; eauto 6.
    + intros [-> | [-> | [-> | ->]]]; eexists; reflexivity.
  - intros c. split.
    + intros [g Hg]. destruct c; simpl in Hg; try discriminate; eauto.
    + intros [-> | ->]; eexists; reflexivity.
  - intros c. split.
    + intros [g Hg]. destruct c; simpl in Hg; try discriminate; eauto.
    + intros [-> | ->]; eexists; reflexivity.
  - intros c. split.
    + intros [g Hg]. destruct c; simpl in Hg; try discriminate; eauto.
    + intros ->; eexists; reflexivity.
Qed.

Lemma X4_projected_crs_witness :
  dispatch (B:=Demo.java) ProjectedCRS M_datum = None ∧
  dispatch (B:=Demo.java) ProjectedCRS M_coordinate_system = None ∧
  is_Some (dispatch (B:=Demo.java) ProjectedCRS M_base_crs).
Proof.
  destruct (X4_projected_crs_accessors (B:=Demo.java)) as (Hp & _).
  split; [reflexivity|]. split; [reflexivity|].
  apply Hp. right. right. right. reflexivity.
Defined.

(** X5.  [name] builds a new [Identifier] at every access.  Two accesses in
    a row on the same wrapper, both answered by the Java side, return two
    different references, each to an [Identifier] that did not exist
    before and that holds what [getName] returned at that access. *)
Theorem X5_name_is_a_new_identifier_each_time `{B : Bridge} (c : cls)
    (f : loc → Py value) (self : loc) (p : value) (s s1 s2 : state)
    (r1 r2 : value) :
  dispatch c M_name = Some f → wraps s self c p →
  run (invoke p "getName" []) s = (Val r1, s1) →
  run (invoke p "getName" []) (run (f self) s).2 = (Val r2, s2) →
  let t1 := (run (f self) s).2 in
  let t2 := (run (f self) t1).2 in
  ∃ l1 l2,
    (run (f self) s).1 = Val (VRef l1) ∧ (run (f self) t1).1 = Val (VRef l2) ∧
    l1 ≠ l2 ∧
    heap s !! l1 = None ∧ heap t1 !! l2 = None ∧
    heap t2 !! l1 = Some (Obj Metadata_Identifier {["_proxy" := r1]}) ∧
    heap t2 !! l2 = Some (Obj Metadata_Identifier {["_proxy" := r2]}).
Proof.
  intros Hd Hw Hr1 Hr2 t1 t2.
  assert (Hw1 : wraps t1 self c p) by apply (accessor_wraps c _ f self p s self c p Hd Hw Hw).
  pose proof (invoke_heap p "getName" [] s) as Hh1. rewrite Hr1 in Hh1. simpl in Hh1.
  pose proof (invoke_heap p "getName" [] t1) as Hh2. fold t1 in Hr2.
  rewrite Hr2 in Hh2. simpl in Hh2.
  assert (E1 : run (f self) s =
               (Val (VRef (length (heap s1))),
                State (heap s1 ++ [Obj Metadata_Identifier {["_proxy" := r1]}])
                      (world s1) (calls s1))).
  { destruct Hw as [_ Hp]. rewrite (dispatch_forward c _ f self p s Hd Hp).
    by rewrite (forward_returns M_name p _ _ r1 s s1 eq_refl Hr1). }
  assert (E2 : run (f self) t1 =
               (Val (VRef (length (heap s2))),
                State (heap s2 ++ [Obj Metadata_Identifier {["_proxy" := r2]}])
                      (world s2) (calls s2))).
  { destruct Hw1 as [_ Hp]. rewrite (dispatch_forward c _ f self p t1 Hd Hp).
    by rewrite (forward_returns M_name p _ _ r2 t1 s2 eq_refl Hr2). }
  assert (Ht1 : heap t1 = heap s ++ [Obj Metadata_Identifier {["_proxy" := r1]}]).
  { unfold t1. rewrite E1. simpl. by rewrite Hh1. }
  exists (length (heap s)), (length (heap t1)).
  split; [by rewrite E1, Hh1|]. split; [by rewrite E2, Hh2|].
  split; [rewrite Ht1, length_app; simpl; lia|].
  split; [by apply lookup_ge_None_2|]. split; [by apply lookup_ge_None_2|].
  unfold t2. rewrite E2. cbn [snd heap]. rewrite Hh2. split.
  - apply lookup_app_l_Some. rewrite Ht1. by apply list_lookup_middle.
  - by apply list_lookup_middle.
Qed.

Lemma X5_name_witness :
  let t1 := (run (B:=Demo.java) (IdentifiedObject.name 0) Demo.with_crs).2 in
  let t2 := (run (B:=Demo.java) (IdentifiedObject.name 0) t1).2 in
  wraps Demo.with_crs 0 CoordinateReferenceSystem (VJava Demo.crs_3395) ∧
  ∃ l1 l2,
    (run (B:=Demo.java) (IdentifiedObject.name 0) Demo.with_crs).1 = Val (VRef l1) ∧
    (run (B:=Demo.java) (IdentifiedObject.name 0) t1).1 = Val (VRef l2) ∧
    l1 ≠ l2 ∧
    heap Demo.with_crs !! l1 = None ∧ heap t1 !! l2 = None ∧
    heap t2 !! l1
    = Some (Obj Metadata_Identifier {["_proxy" := VJava Demo.crs_3395_name]}) ∧
    heap t2 !! l2
    = Some (Obj Metadata_Identifier {["_proxy" := VJava Demo.crs_3395_name]}).
Proof.
  intros t1 t2.
  assert (Hw : wraps Demo.with_crs 0 CoordinateReferenceSystem (VJava Demo.crs_3395))
    by (split; reflexivity).
  split; [exact Hw|].
  exact (X5_name_is_a_new_identifier_each_time (B:=Demo.java)
           CoordinateReferenceSystem IdentifiedObject.name 0%nat
           (VJava Demo.crs_3395) Demo.with_crs _ _
           (VJava Demo.crs_3395_name) (VJava Demo.crs_3395_name)
           eq_refl Hw eq_refl eq_refl).
Defined.

(** X6.  Running [__init__] again on an existing wrapper rebinds it: the
    call returns normally without reaching the Java side, the wrapper keeps
    its address and class and now holds the new proxy [q], every other
    object is as it was, and from then on each accessor of the wrapper is
    the plain forward to [q]. *)
Theorem X6_init_rebinds_the_proxy `{B : Bridge} (c : cls) (self : loc)
    (p q : value) (s : state) :
  wraps s self c p →
  ∃ s', run (init c self q) s = (Val (), s') ∧
        wraps s' self c q ∧
        world s' = world s ∧ calls s' = calls s ∧
        length (heap s') = length (heap s) ∧
        (∀ l, l ≠ self → heap s' !! l = heap s !! l) ∧
        ∀ (m : method) (f : loc → Py value),
          dispatch c m = Some f → run (f self) s' = run (forward m q) s'.
Proof.
  intros [Hc Hp]. unfold class_of, proxy_of in Hc, Hp.
  destruct (heap s !! self) as [o|] eqn:Hl; [|discriminate].
  simpl in Hc, Hp. injection Hc as Hc.
  eexists. split.
  { rewrite init_is_one_store. by apply setattr_proxy_run. }
  assert (Hlt : (self < length (heap s))%nat) by (by eapply lookup_lt_Some).
  assert (Hw' : wraps (State (<[self := Obj (obj_class o) (<["_proxy" := q]> (obj_dict o))]>
                                (heap s)) (world s) (calls s)) self c q).
  { unfold wraps, class_of, proxy_of. cbn [heap].
    rewrite list_lookup_insert_eq by done. simpl.
    by rewrite Hc, lookup_insert_eq. }
  split; [exact Hw'|]. split; [done|]. split; [done|].
  split; [cbn [heap]; by rewrite length_insert|].
  split; [intros l Hne; cbn [heap]; by rewrite list_lookup_insert_ne|].
  intros m f Hd. destruct Hw' as [_ Hq]. by apply (dispatch_forward c m f).
Qed.

Lemma X6_init_rebinds_witness :
  wraps Demo.with_none 0 CoordinateReferenceSystem VNone ∧
  ∃ s', run (B:=Demo.java) (init CoordinateReferenceSystem 0 (VJava Demo.crs_3395))
          Demo.with_none = (Val (), s') ∧
        wraps s' 0 CoordinateReferenceSystem (VJava Demo.crs_3395) ∧
        calls s' = calls Demo.with_none.
Proof.
  assert (Hw : wraps Demo.with_none 0 CoordinateReferenceSystem VNone)
    by (split; reflexivity).
  split; [exact Hw|].
  destruct (X6_init_rebinds_the_proxy (B:=Demo.java) CoordinateReferenceSystem 0%nat
              VNone (VJava Demo.crs_3395) Demo.with_none Hw)
    as (s' & Hrun & Hw' & _ & Hcalls & _).
  exists s'. split; [exact Hrun|]. split; [exact Hw' | exact Hcalls].
Defined.

(** X7.  The raw result of an accessor can be wrapped by the caller and
    used through the module again.  If an accessor other than [name]
    returns [r], then wrapping [r] in any class [c2] and calling an
    accessor of [c2] on the new wrapper is the plain forward of that
    accessor to [r], in the state the first call left plus the one new
    wrapper.  Between two jpy proxies this makes two foreign calls, the
    first on the outer handle and the second on the handle the first
    returned, and no other. *)
Theorem X7_raw_results_can_be_wrapped `{B : Bridge} (c1 c2 : cls) (m1 m2 : method)
    (f1 f2 : loc → Py value) (self : loc) (p r : value) (s s1 : state)
    (n1 : string) (a1 : list value) :
  dispatch c1 m1 = Some f1 → m1 ≠ M_name → foreign_of m1 = Some (n1, a1) →
  wraps s self c1 p → run (invoke p n1 a1) s = (Val r, s1) →
  dispatch c2 m2 = Some f2 →
  let chained := run (raw ← f1 self; w ← new c2 raw; f2 w) s in
  chained =
    run (forward m2 r)
        (State (heap s ++ [Obj (Referencing c2) {["_proxy" := r]}])
               (world s1) (calls s1)) ∧
  ∀ h k n2 a2, p = VJava h → r = VJava k → foreign_of m2 = Some (n2, a2) →
    calls chained.2 = calls s ++ [Event h n1 a1; Event k n2 a2].
Proof.
  intros Hd1 Hm1 Hf1 [_ Hp] Hr Hd2 chained.
  assert (Hh : heap s1 = heap s).
  { pose proof (invoke_heap p n1 a1 s) as Hh. by rewrite Hr in Hh. }
  assert (E : chained =
              run (forward m2 r)
                  (State (heap s ++ [Obj (Referencing c2) {["_proxy" := r]}])
                         (world s1) (calls s1))).
  { unfold chained. rewrite run_bind.
    rewrite (dispatch_forward c1 m1 f1 self p s Hd1 Hp).
    rewrite (forward_raw m1 p n1 a1 s Hf1 Hm1), Hr.
    rewrite run_bind, new_run, Hh.
    apply (dispatch_forward c2 m2 f2).
    - exact Hd2.
    - unfold proxy_of. cbn [heap]. rewrite list_lookup_middle by reflexivity.
      simpl. by rewrite lookup_singleton_eq. }
  split; [exact E|].
  intros h k n2 a2 -> -> Hf2. rewrite E, forward_calls. cbn [calls].
  rewrite invoke_java in Hr. injection Hr as _ <-. cbn [calls].
  unfold events_of. rewrite Hf2. by rewrite <- (assoc_L (++)).
Qed.

Lemma X7_raw_results_witness :
  let chained :=
    run (B:=Demo.java)
        (raw ← CoordinateReferenceSystem.coordinate_system 0;
         w ← new CartesianCS raw;
         CoordinateSystem.axis w (VInt 0)) Demo.with_crs in
  wraps Demo.with_crs 0 CoordinateReferenceSystem (VJava Demo.crs_3395) ∧
  chained.1 = Val (VJava Demo.axis_easting) ∧
  calls chained.2 = [Event Demo.crs_3395 "getCoordinateSystem" [];
                     Event Demo.cartesian_cs "getAxis" [VInt 0]].
Proof.
  intros chained.
  assert (Hw : wraps Demo.with_crs 0 CoordinateReferenceSystem (VJava Demo.crs_3395))
    by (split; reflexivity).
  split; [exact Hw|]. split; [reflexivity|].
  refine (proj2 (X7_raw_results_can_be_wrapped (B:=Demo.java)
                   CoordinateReferenceSystem CartesianCS
                   M_coordinate_system (M_axis (VInt 0))
                   CoordinateReferenceSystem.coordinate_system
                   (λ self, CoordinateSystem.axis self (VInt 0))
                   0%nat (VJava Demo.crs_3395) (VJava Demo.cartesian_cs)
                   Demo.with_crs _ "getCoordinateSystem" []
                   eq_refl _ eq_refl Hw eq_refl eq_refl)
                Demo.crs_3395 Demo.cartesian_cs "getAxis" [VInt 0]
                eq_refl eq_refl eq_refl).
  discriminate.
Defined.

(** X8.  Accessor calls are forwarded one by one, in program order.  After
    any sequence of accessor calls on a wrapper around a jpy proxy of [h],
    whatever each call returned or raised, the log has grown by exactly the
    foreign call of each accessor in turn: none is dropped, merged,
    repeated or reordered, and there is at most one per accessor call. *)
Theorem X8_calls_are_forwarded_in_order `{B : Bridge} (c : cls) (w : loc)
    (h : handle) (ms : list method) (s : state) :
  wraps s w c (VJava h) →
  calls (after c w ms s) = calls s ++ concat (logged c h <$> ms) ∧
  (length (calls (after c w ms s)) ≤ length (calls s) + length ms)%nat.
Proof.
  intros Hw. pose proof (after_log c w h ms s Hw) as Hlog.
  split; [exact Hlog|]. rewrite Hlog, length_app.
  apply Nat.add_le_mono_l. clear Hlog Hw.
  induction ms as [|m rest IH]; csimpl; [lia|].
  rewrite length_app.
  assert (length (logged c h m) ≤ 1)%nat; [|lia].
  unfold logged, events_of.
  destruct (dispatch c m); [destruct (foreign_of m) as [[n a]|]|]; simpl; lia.
Qed.

Lemma X8_calls_in_order_witness :
  wraps Demo.with_cs 0 CartesianCS (VJava Demo.cartesian_cs) ∧
  calls (after (B:=Demo.java) CartesianCS 0
           [M_axis (VInt 1); M_to_wkt; M_datum; M_dimension; M_axis (VInt 9)]
           Demo.with_cs)
  = [Event Demo.cartesian_cs "getAxis" [VInt 1];
     Event Demo.cartesian_cs "toWKT" [];
     Event Demo.cartesian_cs "getDimension" [];
     Event Demo.cartesian_cs "getAxis" [VInt 9]].
Proof.
  assert (Hw : wraps Demo.with_cs 0 CartesianCS (VJava Demo.cartesian_cs))
    by (split; reflexivity).
  split; [exact Hw|].
  exact (proj1 (X8_calls_are_forwarded_in_order (B:=Demo.java) CartesianCS 0%nat
                  Demo.cartesian_cs
                  [M_axis (VInt 1); M_to_wkt; M_datum; M_dimension; M_axis (VInt 9)]
                  Demo.with_cs Hw)).
Defined.

(** X9.  [__str__] hands back whatever [toString] returned, string or not.
    When it is not a string (a Java null arrives as [None]), calling
    [w.__str__()] returns that value, but the builtin [str(w)] raises a
    [TypeError], after the one foreign call has been made. *)
Theorem X9_str_of_a_non_string `{B : Bridge} (c : cls) (self : loc) (p r : value)
    (s s' : state) :
  wraps s self c p →
  run (invoke p "toString" []) s = (Val r, s') →
  (∀ t, r ≠ VStr t) →
  run (IdentifiedObject.__str__ self) s = (Val r, s') ∧
  ∃ msg, run (str (IdentifiedObject.__str__ self)) s = (Exc (TypeError msg), s').
Proof.
  intros [_ Hp] Hr Hns.
  assert (E : run (IdentifiedObject.__str__ self) s = (Val r, s')).
  { rewrite (dispatch_forward c M_str _ self p s (dispatch_str c) Hp).
    by rewrite (forward_raw M_str p "toString" [] s eq_refl), Hr. }
  split; [exact E|]. eexists. unfold str. rewrite run_bind, E.
  destruct r as [| | t | |]; try reflexivity. by destruct (Hns t).
Qed.

Lemma X9_str_of_a_non_string_witness :
  wraps Demo.with_datum 0 GeodeticDatum (VJava Demo.wgs84_datum) ∧
  run (B:=Demo.java) (IdentifiedObject.__str__ 0) Demo.with_datum =
  (Val VNone, State (heap Demo.with_datum) (1%nat : @jstate Demo.java)
                    [Event Demo.wgs84_datum "toString" []]) ∧
  ∃ msg, run (B:=Demo.java) (str (IdentifiedObject.__str__ 0)) Demo.with_datum =
  (Exc (TypeError msg),
   State (heap Demo.with_datum) (1%nat : @jstate Demo.java)
         [Event Demo.wgs84_datum "toString" []]).
Proof.
  assert (Hw : wraps Demo.with_datum 0 GeodeticDatum (VJava Demo.wgs84_datum))
    by (split; reflexivity).
  split; [exact Hw|].
  apply (X9_str_of_a_non_string (B:=Demo.java) GeodeticDatum 0%nat
           (VJava Demo.wgs84_datum) VNone Demo.with_datum _ Hw eq_refl).
  discriminate.
Defined.

(** X10.  The test is vacuous when the helper finds nothing.  If
    [findCoordinateReferenceSystem("EPSG:3395")] returns a value that is
    false in a condition ([None] for an unknown code), [test_find_crs]
    passes: that lookup is its only foreign call, no wrapper is built and
    nothing is asserted. *)
Theorem X10_test_passes_when_nothing_is_found `{B : Bridge} (helper : handle)
    (found : value) (s : state) (w1 : jstate) :
  jinvoke helper "findCoordinateReferenceSystem" [VStr "EPSG:3395"] (world s)
  = (inr found, w1) →
  truthy found = false →
  test_find_crs (VJava helper) s =
  (Passed,
   State (heap s) w1
         (calls s ++ [Event helper "findCoordinateReferenceSystem" [VStr "EPSG:3395"]])).
Proof.
  intros Hfind Hfalse. unfold test_find_crs.
  rewrite invoke_java, Hfind. cbn [fst snd]. by rewrite Hfalse.
Qed.

Lemma X10_test_vacuous_witness :
  truthy VNone = false ∧
  test_find_crs (B:=DemoHelper.java_without_crs) (VJava DemoHelper.python_helper)
    DemoHelper.start_without_crs =
  (Passed,
   State [] (1%nat : @jstate DemoHelper.java_without_crs)
         [Event DemoHelper.python_helper "findCoordinateReferenceSystem"
                [VStr "EPSG:3395"]]).
Proof.
  split; [reflexivity|].
  exact (X10_test_passes_when_nothing_is_found (B:=DemoHelper.java_without_crs)
           DemoHelper.python_helper VNone DemoHelper.start_without_crs 1%nat
           eq_refl eq_refl).
Defined.

(** X11.  When the helper finds a CRS [h], [h.getName()] gives an
    identifier [i] and [i.getCode()] gives [r], [test_find_crs] makes these
    three foreign calls in this order and no other, and its verdict is
    decided by [r] alone: it passes when [r] is the string
    "WGS 84 / World Mercator" and fails, on the pair ([r], that string),
    for any other value. *)
Theorem X11_test_verdict `{B : Bridge} (helper h i : handle) (r : value)
    (s : state) (w1 w2 w3 : jstate) :
  jinvoke helper "findCoordinateReferenceSystem" [VStr "EPSG:3395"] (world s)
  = (inr (VJava h), w1) →
  jinvoke h "getName" [] w1 = (inr (VJava i), w2) →
  jinvoke i "getCode" [] w2 = (inr r, w3) →
  calls (test_find_crs (VJava helper) s).2 =
    calls s ++ [Event helper "findCoordinateReferenceSystem" [VStr "EPSG:3395"];
                Event h "getName" []; Event i "getCode" []] ∧
  world (test_find_crs (VJava helper) s).2 = w3 ∧
  (r = VStr "WGS 84 / World Mercator" →
   (test_find_crs (VJava helper) s).1 = Passed) ∧
  (r ≠ VStr "WGS 84 / World Mercator" →
   (test_find_crs (VJava helper) s).1 = Failed r (VStr "WGS 84 / World Mercator")).
Proof.
  intros Hfind Hname Hcode. unfold test_find_crs.
  rewrite invoke_java, Hfind. cbn [fst snd truthy].
  set (s1 := State _ _ _).
  rewrite (crs_name_code_java h i r s1 w2 w3 Hname Hcode).
  unfold s1, assertEqual. cbn [fst snd calls world].
  split; [by rewrite <- (assoc_L (++))|]. split; [done|].
  split; intros Hr; destruct (decide (r = VStr "WGS 84 / World Mercator")); done.
Qed.

Lemma X11_test_verdict_witness :
  jinvoke (Bridge:=DemoHelper.java) DemoHelper.python_helper
    "findCoordinateReferenceSystem" [VStr "EPSG:3395"] 0%nat
  = (inr (VJava Demo.crs_3395), 1%nat) ∧
  (test_find_crs (B:=DemoHelper.java) (VJava DemoHelper.python_helper)
     DemoHelper.start).1 = Passed ∧
  calls (test_find_crs (B:=DemoHelper.java) (VJava DemoHelper.python_helper)
           DemoHelper.start).2 =
  [Event DemoHelper.python_helper "findCoordinateReferenceSystem" [VStr "EPSG:3395"];
   Event Demo.crs_3395 "getName" []; Event Demo.crs_3395_name "getCode" []].
Proof.
  destruct (X11_test_verdict (B:=DemoHelper.java) DemoHelper.python_helper
              Demo.crs_3395 Demo.crs_3395_name (VStr "WGS 84 / World Mercator")
              DemoHelper.start 1%nat 2%nat 3%nat eq_refl eq_refl eq_refl)
    as (Hlog & _ & Hpass & _).
  split; [reflexivity|]. split; [exact (Hpass eq_refl) | exact Hlog].
Defined.

(** X12.  An accessor never changes the length of the heap except for
    [name] when [getName] has returned, which adds the one [Identifier].
    An accessor other than [name] allocates nothing, and an accessor that
    raises, [name] included, has allocated nothing. *)
Theorem X12_only_a_successful_name_allocates `{B : Bridge} (c : cls) (m : method)
    (f : loc → Py value) (self : loc) (p : value) (s : state) :
  dispatch c m = Some f → wraps s self c p →
  (m ≠ M_name → heap (run (f self) s).2 = heap s) ∧
  (∀ e, (run (f self) s).1 = Exc e → heap (run (f self) s).2 = heap s) ∧
  (heap (run (f self) s).2 = heap s ∨
   ∃ r, m = M_name ∧
        (run (f self) s).1 = Val (VRef (length (heap s))) ∧
        heap (run (f self) s).2 = heap s ++ [Obj Metadata_Identifier {["_proxy" := r]}]).
Proof.
  intros Hd [_ Hp]. rewrite (dispatch_forward c m f self p s Hd Hp).
  unfold forward. destruct (foreign_of m) as [[n a]|] eqn:Hf.
  2: { repeat split; try done. by left. }
  rewrite run_bind. pose proof (invoke_heap p n a s) as Hh.
  destruct (run (invoke p n a) s) as [[r|e|] s1]; cbn [snd] in Hh.
  - destruct (decide (m = M_name)) as [->|Hm].
    + rewrite new_Identifier_run. cbn [fst snd heap]. rewrite Hh.
      split; [done|]. split; [discriminate|]. right. by exists r.
    + cbn [fst snd]. split; [done|]. split; [done|]. by left.
  - cbn [fst snd]. split; [done|]. split; [done|]. by left.
  - cbn [fst snd]. split; [done|]. split; [done|]. by left.
Qed.

Lemma X12_allocation_witness :
  wraps Demo.with_cs 0 CartesianCS (VJava Demo.cartesian_cs) ∧
  (run (B:=Demo.java) (IdentifiedObject.name 0) Demo.with_cs).1
  = Exc (Demo.no_such_method "getName") ∧
  heap (run (B:=Demo.java) (IdentifiedObject.name 0) Demo.with_cs).2
  = heap Demo.with_cs.
Proof.
  assert (Hw : wraps Demo.with_cs 0 CartesianCS (VJava Demo.cartesian_cs))
    by (split; reflexivity).
  split; [exact Hw|]. split; [reflexivity|].
  destruct (X12_only_a_successful_name_allocates (B:=Demo.java) CartesianCS M_name
              IdentifiedObject.name 0%nat (VJava Demo.cartesian_cs) Demo.with_cs
              eq_refl Hw) as (_ & Hexc & _).
  exact (Hexc (Demo.no_such_method "getName") eq_refl).
Defined.
